(** * RemoteBaseEnv: a shallow embedding of [rllib/env/remote_base_env.py]

    The dispatcher keeps a pool of remote sub-environment workers
    ([self.actors]) and a table of outstanding task handles
    ([self.pending]).  The model below follows the Python source method by
    method.  Python exceptions are an explicit result type, the mutable
    object [self] is threaded through every method, and everything the
    source obtains from Ray or from user code (the value an object ref
    resolves to, the worker a factory call returns, the answer of a remote
    query) is a field of the class [Externals]. *)

From stdpp Require Import base tactics option list gmap sets strings numbers.

Set Warnings "-register-all,-clear-no-such-hyp".

(** ** Python values *)

Inductive exn_class :=
| AssertionError | ValueError | KeyError | IndexError | TypeError
| AttributeError | RayTaskError | RayActorError.

(** An exception instance: its class and its [args] tuple (the source reads
    [e.args[0]] when it logs a fault). *)
Record exn := Exn { exc_class : exn_class; exc_args : list string }.

#[global] Instance exn_class_eq_dec : EqDecision exn_class.
Proof. solve_decision. Defined.
#[global] Instance exn_eq_dec : EqDecision exn.
Proof. solve_decision. Defined.

(** Hashable values used as dictionary keys: agent identifiers and the
    reserved string ["__all__"]. *)
Inductive key := KStr (s : string) | KInt (z : Z).

#[global] Instance key_eq_dec : EqDecision key.
Proof. solve_decision. Defined.

#[global] Instance key_countable : Countable key.
Proof.
  refine (inj_countable'
            (λ k, match k with KStr s => inl s | KInt z => inr z end)
            (λ x, match x with inl s => KStr s | inr z => KInt z end) _).
  by intros [].
Defined.

(** A Python [dict] keeps insertion order and that order is observable
    (iteration, unpacking), so a value-level dict is an association list
    with unique keys. *)
Inductive pyval :=
| VNone
| VBool (b : bool)
| VInt (z : Z)
| VFloat (bits : Z)
| VStr (s : string)
| VObj (id : nat)
| VExc (e : exn)
| VTuple (xs : list pyval)
| VList (xs : list pyval)
| VDict (d : list (key * pyval)).

Definition pydict := list (key * pyval).

(** The float literal [0.0]. *)
Definition float_zero : pyval := VFloat 0.

Definition ALL : key := KStr "__all__".

(** ** Results of fallible code *)

Inductive res (A : Type) := Ok (a : A) | Raise (e : exn).
Arguments Ok {A} a.
Arguments Raise {A} e.

Definition res_bind {A B} (r : res A) (k : A → res B) : res B :=
  match r with Ok a => k a | Raise e => Raise e end.

Notation "'try!' x := e 'in' k" := (res_bind e (λ x, k))
  (at level 10, x pattern, e at level 100, k at level 200).

(** ** Dictionary operations *)

Fixpoint dict_get (d : pydict) (k : key) : option pyval :=
  match d with
  | [] => None
  | (k', v) :: d' => if decide (k' = k) then Some v else dict_get d' k
  end.

(** [d[k] = v]: overwrite in place, or append a new key. *)
Fixpoint dict_set (d : pydict) (k : key) (v : pyval) : pydict :=
  match d with
  | [] => [(k, v)]
  | (k', v') :: d' =>
      if decide (k' = k) then (k', v) :: d' else (k', v') :: dict_set d' k v
  end.

(** A dict display [{k1: v1, k2: v2, ...}], evaluated left to right. *)
Definition dict_lit (kvs : list (key * pyval)) : pydict :=
  foldl (λ d kv, dict_set d kv.1 kv.2) [] kvs.

Definition dict_keys (d : pydict) : list key := d.*1.


Definition key_val (k : key) : pyval :=
  match k with KStr s => VStr s | KInt z => VInt z end.


(** ** Python protocol operations used by the source *)

Definition exn_not_iterable : exn := Exn TypeError ["cannot unpack non-iterable object"].
Definition exn_unpack_few : exn := Exn ValueError ["not enough values to unpack"].
Definition exn_unpack_many : exn := Exn ValueError ["too many values to unpack"].
Definition exn_no_keys : exn := Exn AttributeError ["object has no attribute 'keys'"].
Definition exn_no_remote : exn := Exn AttributeError ["object has no attribute 'remote'"].
Definition exn_not_subscriptable : exn := Exn TypeError ["object is not subscriptable"].
Definition exn_bad_index : exn := Exn TypeError ["list indices must be integers or slices"].
Definition exn_index_range : exn := Exn IndexError ["list index out of range"].
Definition exn_assign_range : exn := Exn IndexError ["list assignment index out of range"].
Definition exn_tuple_range : exn := Exn IndexError ["tuple index out of range"].
Definition exn_key (k : key) : exn :=
  Exn KeyError [match k with KStr s => s | KInt _ => "<int>" end].
Definition exn_not_in_list : exn := Exn ValueError ["x is not in list"].

Fixpoint string_chars (s : string) : list pyval :=
  match s with
  | EmptyString => []
  | String c s' => VStr (String c EmptyString) :: string_chars s'
  end.

(** The elements [iter(v)] yields. *)
Definition py_iter (v : pyval) : res (list pyval) :=
  match v with
  | VTuple xs | VList xs => Ok xs
  | VDict d => Ok (key_val <$> dict_keys d)
  | VStr s => Ok (string_chars s)
  | _ => Raise exn_not_iterable
  end.

(** [a, b = v] *)
Definition unpack2 (v : pyval) : res (pyval * pyval) :=
  try! xs := py_iter v in
  match xs with
  | [a; b] => Ok (a, b)
  | [] | [_] => Raise exn_unpack_few
  | _ => Raise exn_unpack_many
  end.

Definition five : Type := pyval * pyval * pyval * pyval * pyval.

Definition unpack5_list {A} (xs : list A) : res (A * A * A * A * A) :=
  match xs with
  | [a; b; c; d; e] => Ok (a, b, c, d, e)
  | _ :: _ :: _ :: _ :: _ :: _ :: _ => Raise exn_unpack_many
  | _ => Raise exn_unpack_few
  end.

(** [a, b, c, d, e = v] *)
Definition unpack5 (v : pyval) : res five :=
  try! xs := py_iter v in unpack5_list xs.

(** [v.keys()] *)
Definition py_keys (v : pyval) : res (list key) :=
  match v with
  | VDict d => Ok (dict_keys d)
  | _ => Raise exn_no_keys
  end.

(** [l[i]] for a Python sequence [l] and an index that may be [None] (or
    any other non-integer), negative or out of range: the position read. *)
Definition list_index {A} (l : list A) (i : option Z) : res nat :=
  match i with
  | None => Raise exn_bad_index
  | Some z =>
      let n := Z.of_nat (length l) in
      let j := if decide (z < 0)%Z then (z + n)%Z else z in
      if decide (0 ≤ j < n)%Z then Ok (Z.to_nat j) else Raise exn_index_range
  end.

Definition list_getitem {A} (l : list A) (i : option Z) : res A :=
  try! j := list_index l i in
  match l !! j with Some x => Ok x | None => Raise exn_index_range end.

Definition int_of_key (k : key) : option Z :=
  match k with KInt z => Some z | KStr _ => None end.

(** [v[k]] for a key [k]. *)
Definition py_getitem (v : pyval) (k : key) : res pyval :=
  match v with
  | VDict d =>
      match dict_get d k with Some x => Ok x | None => Raise (exn_key k) end
  | VTuple xs | VList xs => list_getitem xs (int_of_key k)
  | VStr s => list_getitem (string_chars s) (int_of_key k)
  | _ => Raise exn_not_subscriptable
  end.

(** [l.index(x)]: the first position holding a value equal to [x]. *)
Definition list_index_of `{EqDecision A} (l : list A) (x : A) : res nat :=
  match list_find (λ y, y = x) l with
  | Some (i, _) => Ok i
  | None => Raise exn_not_in_list
  end.

(** ** Workers, task handles and the Ray runtime *)

Definition ObjRef := nat.

(** What a worker slot or an [existing_envs] entry can hold: a Ray actor
    handle, or a plain (local) environment object. *)
Inductive EnvObj := ActorHandle (a : nat) | GymEnv (id : nat).

#[global] Instance EnvObj_eq_dec : EqDecision EnvObj.
Proof. solve_decision. Defined.

Definition is_actor (w : EnvObj) : bool :=
  match w with ActorHandle _ => true | GymEnv _ => false end.

Inductive method :=
| MReset (seed options : pyval)
| MStep (action : pyval)
| MClose
| MTerminate
| MObservationSpace
| MActionSpace
| MGetAgentIds.

(** Everything the dispatcher does to the outside world, most recent first. *)
Inductive event :=
| EvMakeEnv (idx : Z) (r : res EnvObj)
| EvSpawn (multi : bool) (idx : Z) (w : EnvObj)
| EvCallback (idx : Z) (sub_environment : EnvObj)
| EvRemote (w : EnvObj) (m : method) (r : ObjRef)
| EvLogException (msg : string)
| EvLogWarning
| EvLogDebug (env_ids : gset nat).

(** The attributes of [self], followed by the part of the Ray runtime the
    methods act on: the next object ref and the next actor id Ray hands
    out, and the events so far.  [has_worker] is [self.worker is not None];
    [self.poll_timeout] is [remote_env_batch_wait_ms / 1000], of which only
    the integer is kept. *)
Record RemoteBaseEnv := {
  num_envs : Z;
  multiagent : bool;
  remote_env_batch_wait_ms : Z;
  has_worker : bool;
  restart_failed_sub_environments : bool;
  make_env_creates_actors : bool;
  _observation_space : pyval;
  _action_space : pyval;
  actors : list EnvObj;
  pending : gmap ObjRef EnvObj;
  next_ref : nat;
  next_actor : nat;
  trace : list event
}.

Definition set_actors (l : list EnvObj) (s : RemoteBaseEnv) : RemoteBaseEnv :=
  {| num_envs := num_envs s; multiagent := multiagent s;
     remote_env_batch_wait_ms := remote_env_batch_wait_ms s;
     has_worker := has_worker s;
     restart_failed_sub_environments := restart_failed_sub_environments s;
     make_env_creates_actors := make_env_creates_actors s;
     _observation_space := _observation_space s;
     _action_space := _action_space s;
     actors := l; pending := pending s;
     next_ref := next_ref s; next_actor := next_actor s; trace := trace s |}.

Definition set_pending (p : gmap ObjRef EnvObj) (s : RemoteBaseEnv) : RemoteBaseEnv :=
  {| num_envs := num_envs s; multiagent := multiagent s;
     remote_env_batch_wait_ms := remote_env_batch_wait_ms s;
     has_worker := has_worker s;
     restart_failed_sub_environments := restart_failed_sub_environments s;
     make_env_creates_actors := make_env_creates_actors s;
     _observation_space := _observation_space s;
     _action_space := _action_space s;
     actors := actors s; pending := p;
     next_ref := next_ref s; next_actor := next_actor s; trace := trace s |}.

Definition set_spaces (o a : pyval) (s : RemoteBaseEnv) : RemoteBaseEnv :=
  {| num_envs := num_envs s; multiagent := multiagent s;
     remote_env_batch_wait_ms := remote_env_batch_wait_ms s;
     has_worker := has_worker s;
     restart_failed_sub_environments := restart_failed_sub_environments s;
     make_env_creates_actors := make_env_creates_actors s;
     _observation_space := o;
     _action_space := a;
     actors := actors s; pending := pending s;
     next_ref := next_ref s; next_actor := next_actor s; trace := trace s |}.

(** Record one event; optionally consume a fresh object ref or actor id. *)
Definition emit (dref dactor : nat) (ev : event) (s : RemoteBaseEnv) : RemoteBaseEnv :=
  {| num_envs := num_envs s; multiagent := multiagent s;
     remote_env_batch_wait_ms := remote_env_batch_wait_ms s;
     has_worker := has_worker s;
     restart_failed_sub_environments := restart_failed_sub_environments s;
     make_env_creates_actors := make_env_creates_actors s;
     _observation_space := _observation_space s;
     _action_space := _action_space s;
     actors := actors s; pending := pending s;
     next_ref := dref + next_ref s; next_actor := dactor + next_actor s;
     trace := ev :: trace s |}.

Definition log (ev : event) : RemoteBaseEnv → RemoteBaseEnv := emit 0 0 ev.

(** A method of the dispatcher: it may mutate [self] and then return or
    raise; the mutations made before a [raise] stay. *)
Definition M (A : Type) : Type := RemoteBaseEnv → RemoteBaseEnv * res A.

Definition ok {A} (a : A) : M A := λ s, (s, Ok a).
Definition raise {A} (e : exn) : M A := λ s, (s, Raise e).
Definition lift {A} (r : res A) : M A := λ s, (s, r).
Definition bind {A B} (m : M A) (k : A → M B) : M B :=
  λ s, match m s with
       | (s', Ok a) => k a s'
       | (s', Raise e) => (s', Raise e)
       end.
Definition get {A} (f : RemoteBaseEnv → A) : M A := λ s, (s, Ok (f s)).
Definition modify (f : RemoteBaseEnv → RemoteBaseEnv) : M unit := λ s, (f s, Ok tt).

Notation "'do!' x ← e ; k" := (bind e (λ x, k))
  (at level 10, x pattern, e at level 100, k at level 200).
Notation "e ;; k" := (bind e (λ _, k))
  (at level 100, k at level 200, right associativity).

(** [w.<method>.remote(...)]: submit a task to worker [w] and obtain a fresh
    object ref.  A plain environment object has no [.remote]. *)
Definition remote_call (w : EnvObj) (m : method) : M ObjRef :=
  λ s, match w with
       | ActorHandle _ => (emit 1 0 (EvRemote w m (next_ref s)) s, Ok (next_ref s))
       | GymEnv _ => (s, Raise exn_no_remote)
       end.

(** ** The result normalizer (body of the [poll] loop, source lines 192-261) *)

Definition assert_arity : exn :=
  Exn AssertionError
    ["Your gymnasium.Env seems to NOT return the correct number of return values for `step()` (needs to return 5 values: obs, reward, terminated, truncated and info) or `reset()` (needs to return 2 values: obs and info)!"].
Definition assert_single_multi : exn :=
  Exn AssertionError
    ["Your gymnasium.Env seems to only return a single value upon `reset()`! Must return 2 (obs AND infos)."].
Definition assert_single : exn :=
  Exn AssertionError
    ["Your gymnasium.Env seems to only return a single value upon `reset()`! Must return 2 (obs and infos)."].

(** The tuple [poll] substitutes for the result of a faulted task. *)
Definition fault_ret (e : exn) : pyval :=
  VTuple [VExc e; VDict (dict_lit []); VDict (dict_lit [(ALL, VBool true)]);
          VDict (dict_lit [(ALL, VBool false)]); VDict (dict_lit [])].

(** The batch under construction: the five dicts keyed by env_id and the
    set [env_ids]. *)
Record Batch := {
  obs : gmap nat pyval;
  rewards : gmap nat pyval;
  terminateds : gmap nat pyval;
  truncateds : gmap nat pyval;
  infos : gmap nat pyval;
  env_ids : gset nat
}.

Definition empty_batch : Batch :=
  {| obs := ∅; rewards := ∅; terminateds := ∅; truncateds := ∅; infos := ∅;
     env_ids := ∅ |}.

Definition add_env_id (i : nat) (b : Batch) : Batch :=
  {| obs := obs b; rewards := rewards b; terminateds := terminateds b;
     truncateds := truncateds b; infos := infos b;
     env_ids := {[i]} ∪ env_ids b |}.

Definition store (i : nat) (r : five) (b : Batch) : Batch :=
  let '(ob, rew, terminated, truncated, info) := r in
  {| obs := <[i := ob]> (obs b); rewards := <[i := rew]> (rewards b);
     terminateds := <[i := terminated]> (terminateds b);
     truncateds := <[i := truncated]> (truncateds b);
     infos := <[i := info]> (infos b); env_ids := env_ids b |}.

(** What [poll] returns: [obs, rewards, terminateds, truncateds, infos, {}]. *)
Definition MultiEnvDict := gmap nat pyval.
Definition poll_result : Type :=
  MultiEnvDict * MultiEnvDict * MultiEnvDict * MultiEnvDict * MultiEnvDict * MultiEnvDict.

(** ** What the dispatcher takes from outside

    Two constants imported from [ray.rllib.env.base_env], the Ray primitives
    and the user's factory. *)
Class Externals := {
  (** The reserved agent key and the sentinel [try_reset] returns. *)
  _DUMMY_AGENT_ID : key;
  ASYNC_RESET_RETURN : pyval;
  (** [ray.get(obj_ref)]: the value the task returned, or the fault it
      raised. *)
  ray_get : ObjRef → res pyval;
  (** [self.make_env(idx)] when it is called directly (the factory produces
      workers itself); the first argument is the number of events so far,
      so that two calls need not agree. *)
  make_env : nat → Z → res EnvObj;
  (** [env.observation_space, env.action_space] of a local environment, and
      the same pair queried from a worker through [ray.get]. *)
  local_spaces : EnvObj → pyval * pyval;
  remote_spaces : EnvObj → res (pyval * pyval);
  (** [ray.get(w.get_agent_ids.remote())] *)
  remote_agent_ids : EnvObj → res (gset key)
}.

(** ** The wrapper actors *)

(** [_RemoteMultiAgentEnv]: the wrapped environment is external, so every
    method takes what the environment call returned or raised. *)
Record _RemoteMultiAgentEnv := { agent_ids : gset key }.

Definition _RemoteMultiAgentEnv_init : _RemoteMultiAgentEnv := {| agent_ids := ∅ |}.

Definition _RemoteMultiAgentEnv_reset (env_reset : res pyval) (self : _RemoteMultiAgentEnv)
  : _RemoteMultiAgentEnv * res pyval :=
  match (try! r := env_reset in try! (ob, info) := unpack2 r in
         try! ks := py_keys ob in Ok (ob, info, ks)) with
  | Raise e => (self, Raise e)
  | Ok (ob, info, ks) =>
      ({| agent_ids := foldl (λ ids agent_id, {[agent_id]} ∪ ids) (agent_ids self) ks |},
       Ok (VTuple [ob;
                   VDict (foldl (λ rew agent_id, dict_set rew agent_id float_zero) [] ks);
                   VDict (dict_lit [(ALL, VBool false)]);
                   VDict (dict_lit [(ALL, VBool false)]); info]))
  end.

Definition _RemoteMultiAgentEnv_step (env_step : res pyval) (self : _RemoteMultiAgentEnv)
  : _RemoteMultiAgentEnv * res pyval :=
  (self, env_step).

Definition _RemoteMultiAgentEnv_get_agent_ids (self : _RemoteMultiAgentEnv) : gset key :=
  agent_ids self.

(** The calls a wrapper has executed since it was built, oldest first. *)
Inductive call :=
| CallReset (env_reset : res pyval)
| CallStep (env_step : res pyval).

Definition run_call (self : _RemoteMultiAgentEnv) (c : call) : _RemoteMultiAgentEnv :=
  match c with
  | CallReset r => (_RemoteMultiAgentEnv_reset r self).1
  | CallStep r => (_RemoteMultiAgentEnv_step r self).1
  end.

Definition run_calls (cs : list call) : _RemoteMultiAgentEnv :=
  foldl run_call _RemoteMultiAgentEnv_init cs.

(** A [reset()] that returned: the agent keys of its observation. *)
Definition reset_keys (c : call) : option (list key) :=
  match c with
  | CallReset r =>
      match (_RemoteMultiAgentEnv_reset r _RemoteMultiAgentEnv_init).2 with
      | Ok (VTuple (VDict d :: _)) => Some (dict_keys d)
      | _ => None
      end
  | CallStep _ => None
  end.

(** [_RemoteSingleAgentEnv] has no state of its own. *)
Section SingleAgent.
Context {ext : Externals}.

Definition _RemoteSingleAgentEnv_reset (env_reset : res pyval) : res pyval :=
  try! obs_and_info := env_reset in
  try! o := py_getitem obs_and_info (KInt 0) in
  try! i := py_getitem obs_and_info (KInt 1) in
  Ok (VTuple [VDict (dict_lit [(_DUMMY_AGENT_ID, o)]);
              VDict (dict_lit [(_DUMMY_AGENT_ID, float_zero)]);
              VDict (dict_lit [(ALL, VBool false)]);
              VDict (dict_lit [(ALL, VBool false)]);
              VDict (dict_lit [(_DUMMY_AGENT_ID, i)])]).

Definition _RemoteSingleAgentEnv_step (env_step : pyval → res pyval) (action : pyval)
  : res pyval :=
  try! a := py_getitem action _DUMMY_AGENT_ID in
  try! results := env_step a in
  try! xs := py_iter results in
  try! (ob, rew, terminated, truncated, info) :=
    unpack5_list ((λ x, dict_lit [(_DUMMY_AGENT_ID, x)]) <$> xs) in
  try! t := py_getitem (VDict terminated) _DUMMY_AGENT_ID in
  let terminated := dict_set terminated ALL t in
  try! tr := py_getitem (VDict truncated) _DUMMY_AGENT_ID in
  let truncated := dict_set truncated ALL tr in
  Ok (VTuple [VDict ob; VDict rew; VDict terminated; VDict truncated; VDict info]).

End SingleAgent.

(** ** The dispatcher *)

Section RemoteBaseEnv.

Context {ext : Externals}.

Definition singleton_dict (v : pyval) : pyval := VDict (dict_lit [(_DUMMY_AGENT_ID, v)]).
Definition flag_dict (v : pyval) : pyval :=
  VDict (dict_lit [(_DUMMY_AGENT_ID, v); (ALL, v)]).

(** Lines 193-247: the branch for workers that are actors themselves; the
    four names start as [None]. *)
Definition decode_actor (multi : bool) (ret : pyval) : res five :=
  if multi then
    match ret with
    | VTuple [ob; rew; terminated; truncated; info] =>
        Ok (ob, rew, terminated, truncated, info)
    | VTuple [ob; info] => Ok (ob, VNone, VNone, VNone, info)
    | VTuple _ => Raise assert_arity
    | _ => Raise assert_single_multi
    end
  else
    match ret with
    | VTuple [r0; r1; r2; r3; r4] =>
        Ok (singleton_dict r0, singleton_dict r1, flag_dict r2, flag_dict r3,
            singleton_dict r4)
    | VTuple [r0; r1] => Ok (singleton_dict r0, VNone, VNone, VNone, singleton_dict r1)
    | VTuple _ => Raise assert_arity
    | _ => Raise assert_single
    end.

(** Lines 252-255: a [None] reward marks a [reset()] result. *)
Definition fill_reset (r : five) : res five :=
  let '(ob, rew, _, _, info) := r in
  match rew with
  | VNone =>
      try! ks := py_keys ob in
      Ok (ob, VDict (dict_lit ((λ agent_id, (agent_id, VInt 0)) <$> ks)),
          VDict (dict_lit [(ALL, VBool false)]),
          VDict (dict_lit [(ALL, VBool false)]), info)
  | _ => Ok r
  end.

Definition normalize (creates_actors multi : bool) (ret : pyval) : res five :=
  if creates_actors then
    try! r := decode_actor multi ret in fill_reset r
  else unpack5 ret.

(** ** [_make_sub_env] *)

Definition _make_sub_env (idx : Z) : M EnvObj :=
  λ s,
    if make_env_creates_actors s then
      let r := make_env (length (trace s)) idx in
      let s := log (EvMakeEnv idx r) s in
      match r with
      | Raise e => (s, Raise e)
      | Ok sub_env =>
          if has_worker s then
            match list_getitem (actors s) (Some idx) with
            | Ok w => (log (EvCallback idx w) s, Ok sub_env)
            | Raise e => (s, Raise e)
            end
          else (s, Ok sub_env)
      end
    else
      let sub_env := ActorHandle (next_actor s) in
      let s := emit 0 1 (EvSpawn (multiagent s) idx sub_env) s in
      let s := if has_worker s then log (EvCallback idx sub_env) s else s in
      (s, Ok sub_env).

(** [self.actors[env_id]] *)
Definition actor_at (env_id : option Z) : M EnvObj :=
  λ s, (s, list_getitem (actors s) env_id).

(** ** [try_restart]

    The [try] block covers the subscript as well as the remote call, so any
    exception of either only produces the warning. *)

Definition try_restart (env_id : option Z) : M unit :=
  λ s,
    let s :=
      match list_getitem (actors s) env_id with
      | Ok w =>
          match remote_call w MClose s with
          | (s', Ok _) => s'
          | (s', Raise _) => log EvLogWarning s'
          end
      | Raise _ => log EvLogWarning s
      end in
    (do! w ← actor_at env_id;
     do! _ ← remote_call w MTerminate;
     match env_id with
     | None => raise exn_bad_index
     | Some idx =>
         do! sub_env ← _make_sub_env idx;
         λ s, match list_index (actors s) env_id with
              | Ok j => (set_actors (<[j := sub_env]> (actors s)) s, Ok tt)
              | Raise _ => (s, Raise exn_assign_range)
              end
     end) s.

(** ** [poll] *)

(** The [while not ready] loop: [rounds] lists what the successive
    [ray.wait] calls report as ready; the loop ends at the first non-empty
    report and blocks for ever if there is none. *)
Fixpoint wait_ready (rounds : list (list ObjRef)) : option (list ObjRef) :=
  match rounds with
  | [] => None
  | [] :: rounds' => wait_ready rounds'
  | ready :: _ => Some ready
  end.

(** One iteration of [for obj_ref in ready]. *)
Definition poll_step (b : Batch) (obj_ref : ObjRef) : M Batch :=
  λ s,
    match pending s !! obj_ref with
    | None => (s, Raise (Exn KeyError ["obj_ref"]))
    | Some actor =>
        let s := set_pending (delete obj_ref (pending s)) s in
        match list_index_of (actors s) actor with
        | Raise e => (s, Raise e)
        | Ok env_id =>
            let b := add_env_id env_id b in
            let fetched : RemoteBaseEnv * res pyval :=
              match ray_get obj_ref with
              | Ok ret => (s, Ok ret)
              | Raise e =>
                  if restart_failed_sub_environments s then
                    match exc_args e with
                    | [] => (s, Raise exn_tuple_range)
                    | msg :: _ =>
                        match try_restart (Some (Z.of_nat env_id))
                                (log (EvLogException msg) s) with
                        | (s', Ok _) => (s', Ok (fault_ret e))
                        | (s', Raise e') => (s', Raise e')
                        end
                    end
                  else (s, Raise e)
              end in
            match fetched with
            | (s, Raise e) => (s, Raise e)
            | (s, Ok ret) =>
                match normalize (make_env_creates_actors s) (multiagent s) ret with
                | Raise e => (s, Raise e)
                | Ok r => (s, Ok (store env_id r b))
                end
            end
        end
    end.

Fixpoint poll_loop (ready : list ObjRef) (b : Batch) : M Batch :=
  match ready with
  | [] => ok b
  | obj_ref :: ready' => do! b' ← poll_step b obj_ref; poll_loop ready' b'
  end.

Definition poll_return (b : Batch) : poll_result :=
  (obs b, rewards b, terminateds b, truncateds b, infos b, ∅).

(** [poll()]; [None] stands for a call that never leaves the wait loop. *)
Definition poll (rounds : list (list ObjRef)) (s : RemoteBaseEnv)
  : option (RemoteBaseEnv * res poll_result) :=
  match wait_ready rounds with
  | None => None
  | Some ready =>
      Some ((do! b ← poll_loop ready empty_batch;
             modify (log (EvLogDebug (env_ids b)));;
             ok (poll_return b)) s)
  end.

(** ** [send_actions] and [try_reset] *)

Definition send_one (env_id : key) (actions : pyval) : M unit :=
  do! actor ← actor_at (int_of_key env_id);
  do! multi ← get multiagent;
  do! creates ← get make_env_creates_actors;
  do! obj_ref ←
    (if negb multi && creates then
       do! a ← lift (py_getitem actions _DUMMY_AGENT_ID);
       remote_call actor (MStep a)
     else remote_call actor (MStep actions));
  modify (λ s, set_pending (<[obj_ref := actor]> (pending s)) s).

Fixpoint send_actions (action_dict : pydict) : M unit :=
  match action_dict with
  | [] => ok tt
  | (env_id, actions) :: rest => send_one env_id actions;; send_actions rest
  end.

Definition try_reset (env_id : option Z) (seed options : pyval) : M (pyval * pyval) :=
  do! actor ← actor_at env_id;
  do! obj_ref ← remote_call actor (MReset seed options);
  modify (λ s, set_pending (<[obj_ref := actor]> (pending s)) s);;
  ok (ASYNC_RESET_RETURN, ASYNC_RESET_RETURN).

(** ** [stop], [get_sub_environments], [get_agent_ids] *)

Fixpoint terminate_all (l : list EnvObj) : M unit :=
  match l with
  | [] => ok tt
  | actor :: l' => do! _ ← remote_call actor MTerminate; terminate_all l'
  end.

Definition stop : M unit := do! l ← get actors; terminate_all l.

Definition get_sub_environments (as_dict : bool) (s : RemoteBaseEnv)
  : list EnvObj + gmap nat EnvObj :=
  if as_dict then inr (list_to_map (imap (λ i w, (i, w)) (actors s)))
  else inl (actors s).

Definition get_agent_ids : M (gset key) :=
  do! multi ← get multiagent;
  if multi then
    do! w ← actor_at (Some 0%Z);
    do! _ ← remote_call w MGetAgentIds;
    lift (remote_agent_ids w)
  else ok {[_DUMMY_AGENT_ID]}.

(** ** [__init__] *)

(** [while len(self.actors) < self.num_envs: self.actors.append(...)]; every
    iteration lengthens the list by one, so [fuel] bounds the iterations. *)
Fixpoint extend_actors (fuel : nat) : M unit :=
  match fuel with
  | 0 => ok tt
  | S fuel' =>
      do! l ← get actors;
      do! n ← get num_envs;
      if decide (Z.of_nat (length l) < n)%Z then
        do! w ← _make_sub_env (Z.of_nat (length l));
        modify (λ s, set_actors (actors s ++ [w]) s);;
        extend_actors fuel'
      else ok tt
  end.

(** [[self._make_sub_env(i) for i in range(self.num_envs)]] *)
Fixpoint make_all (idxs : list nat) : M (list EnvObj) :=
  match idxs with
  | [] => ok []
  | i :: idxs' =>
      do! w ← _make_sub_env (Z.of_nat i);
      do! ws ← make_all idxs';
      ok (w :: ws)
  end.

(** [{a.reset.remote(): a for a in self.actors}] *)
Fixpoint reset_all (l : list EnvObj) (p : gmap ObjRef EnvObj) : M (gmap ObjRef EnvObj) :=
  match l with
  | [] => ok p
  | a :: l' =>
      do! obj_ref ← remote_call a (MReset VNone VNone);
      reset_all l' (<[obj_ref := a]> p)
  end.

(** The object as it is before the body of [__init__] runs; [refs0],
    [actors0] and [trace0] are the state of the Ray runtime at that time. *)
Definition blank (num : Z) (multi : bool) (wait_ms : Z) (worker restart : bool)
    (refs0 actors0 : nat) (trace0 : list event) : RemoteBaseEnv :=
  {| num_envs := num; multiagent := multi; remote_env_batch_wait_ms := wait_ms;
     has_worker := worker; restart_failed_sub_environments := restart;
     make_env_creates_actors := false;
     _observation_space := VNone; _action_space := VNone;
     actors := []; pending := ∅;
     next_ref := refs0; next_actor := actors0; trace := trace0 |}.

Definition set_creates_actors (s : RemoteBaseEnv) : RemoteBaseEnv :=
  {| num_envs := num_envs s; multiagent := multiagent s;
     remote_env_batch_wait_ms := remote_env_batch_wait_ms s;
     has_worker := has_worker s;
     restart_failed_sub_environments := restart_failed_sub_environments s;
     make_env_creates_actors := true;
     _observation_space := _observation_space s;
     _action_space := _action_space s;
     actors := actors s; pending := pending s;
     next_ref := next_ref s; next_actor := next_actor s; trace := trace s |}.

Definition first_is_actor (l : list EnvObj) : bool :=
  match l with ActorHandle _ :: _ => true | _ => false end.

(** Lines 112-123: the spaces, taken from the first existing environment
    or queried from worker 0. *)
Definition init_spaces (existing_envs : list EnvObj) : M unit :=
  match existing_envs with
  | e0 :: _ => modify (set_spaces (local_spaces e0).1 (local_spaces e0).2)
  | [] =>
      do! a0 ← actor_at (Some 0%Z);
      do! _ ← remote_call a0 MObservationSpace;
      do! a0' ← actor_at (Some 0%Z);
      do! _ ← remote_call a0' MActionSpace;
      do! sp ← lift (remote_spaces a0);
      modify (set_spaces sp.1 sp.2)
  end.

(** Lines 93-123: assemble [self.actors]. *)
Definition init_actors (existing_envs : list EnvObj) : M unit :=
  if first_is_actor existing_envs then
    modify set_creates_actors;;
    modify (set_actors existing_envs);;
    do! n ← get num_envs;
    extend_actors (Z.to_nat (n - Z.of_nat (length existing_envs)))
  else
    do! n ← get num_envs;
    do! ws ← make_all (seq 0 (Z.to_nat n));
    modify (set_actors ws);;
    init_spaces existing_envs.

Definition __init__ (existing_envs : option (list EnvObj)) : M unit :=
  let existing_envs := default [] existing_envs in
  init_actors existing_envs;;
  do! l ← get actors;
  do! p ← reset_all l ∅;
  modify (set_pending p).

(** ** Reading the state *)

(** The env_id a pending handle stands for: the slot [poll] would compute
    for it. *)
Definition target (s : RemoteBaseEnv) (h : ObjRef) : option nat :=
  match pending s !! h with
  | Some w => match list_index_of (actors s) w with Ok i => Some i | Raise _ => None end
  | None => None
  end.

(** Worker [w] has a task outstanding. *)
Definition outstanding (s : RemoteBaseEnv) (w : EnvObj) : Prop :=
  ∃ h, pending s !! h = Some w.

(** The env_ids [poll] adds to [env_ids], each read at the moment its handle
    is taken from the pending table. *)
Fixpoint resolved_env_ids (ready : list ObjRef) (s : RemoteBaseEnv) : gset nat :=
  match ready with
  | [] => ∅
  | h :: ready' =>
      match target s h with
      | Some i => {[i]} ∪ resolved_env_ids ready' (poll_step empty_batch h s).1
      | None => ∅
      end
  end.


(** ** Call sequences *)

Inductive op :=
| OpPoll (rounds : list (list ObjRef))
| OpSendActions (action_dict : pydict)
| OpTryReset (env_id : option Z) (seed options : pyval)
| OpTryRestart (env_id : option Z).

(** The state a call leaves behind, whether it returns or raises; a [poll]
    that never leaves its wait loop changes nothing. *)
Definition run_op (o : op) (s : RemoteBaseEnv) : RemoteBaseEnv :=
  match o with
  | OpPoll rounds => match poll rounds s with Some (s', _) => s' | None => s end
  | OpSendActions d => (send_actions d s).1
  | OpTryReset i seed options => (try_reset i seed options s).1
  | OpTryRestart i => (try_restart i s).1
  end.

(** The workers an [action_dict] addresses. *)
Definition targets (s : RemoteBaseEnv) (d : pydict) : list EnvObj :=
  omap (λ kv, match list_getitem (actors s) (int_of_key kv.1) with
              | Ok w => Some w
              | Raise _ => None
              end) d.

(** The caller discipline: no task is submitted to a worker that still has
    one outstanding. *)
Definition disciplined (s : RemoteBaseEnv) (o : op) : Prop :=
  match o with
  | OpSendActions d => NoDup (targets s d) ∧ ∀ w, w ∈ targets s d → ¬ outstanding s w
  | OpTryReset i _ _ => ∀ w, list_getitem (actors s) i = Ok w → ¬ outstanding s w
  | OpPoll _ | OpTryRestart _ => True
  end.

(** States of a dispatcher that was constructed and then driven by
    disciplined calls.  Where the pool is assembled from workers the caller
    supplies ([existing_envs] and the factory's own actors), the discipline
    starts at construction: no worker may sit in two slots, or [__init__]
    itself would send it two [reset()] tasks.  A pool of wrapper actors
    needs no such condition. *)
Inductive reachable : RemoteBaseEnv → Prop :=
| reach_init num multi wait_ms worker restart refs0 actors0 trace0 existing s :
    __init__ existing (blank num multi wait_ms worker restart refs0 actors0 trace0)
      = (s, Ok tt) →
    (first_is_actor (default [] existing) = true → NoDup (actors s)) →
    reachable s
| reach_op s o :
    reachable s → disciplined s o → reachable (run_op o s).

(** The record the claims call canonical for a single-agent step outcome
    [(o, r, t, tr, i)]; the two flag dicts are Python dict displays. *)
Definition single_agent_record (o r t tr i : pyval) : five :=
  (VDict [(_DUMMY_AGENT_ID, o)], VDict [(_DUMMY_AGENT_ID, r)],
   VDict (dict_lit [(_DUMMY_AGENT_ID, t); (ALL, t)]),
   VDict (dict_lit [(_DUMMY_AGENT_ID, tr); (ALL, tr)]),
   VDict [(_DUMMY_AGENT_ID, i)]).


(** The record a returned batch holds for env_id [i]. *)
Definition record_at (i : nat) (r : poll_result) : option five :=
  let '(o, rew, te, tr, inf, _) := r in
  ob ← o !! i; rw ← rew !! i; t ← te !! i; u ← tr !! i; info ← inf !! i;
  Some (ob, rw, t, u, info).

(** What a [poll] call returned or raised, if it came back at all. *)
Definition outcome {A} (r : option (RemoteBaseEnv * res A)) : option (res A) :=
  snd <$> r.

Definition returned_record (i : nat) (r : option (RemoteBaseEnv * res poll_result))
  : option five :=
  match r with
  | Some (_, Ok batch) => record_at i batch
  | _ => None
  end.

(** The five dicts of a batch have the key set [env_ids]. *)
Definition keys_agree (b : Batch) : Prop :=
  dom (obs b) = env_ids b ∧ dom (rewards b) = env_ids b ∧
  dom (terminateds b) = env_ids b ∧ dom (truncateds b) = env_ids b ∧
  dom (infos b) = env_ids b.

(** The construction-time settings of two states agree. *)
Definition same_config (s s' : RemoteBaseEnv) : Prop :=
  num_envs s' = num_envs s ∧ multiagent s' = multiagent s ∧
  has_worker s' = has_worker s ∧
  restart_failed_sub_environments s' = restart_failed_sub_environments s ∧
  make_env_creates_actors s' = make_env_creates_actors s.



End RemoteBaseEnv.

Arguments list_index : simpl never.
Arguments list_getitem : simpl never.
Arguments list_index_of : simpl never.
Arguments py_getitem : simpl never.
Arguments normalize : simpl never.
Arguments fill_reset : simpl never.
Arguments remote_call : simpl never.
Arguments _make_sub_env : simpl never.
Arguments try_restart : simpl never.
Arguments poll_step : simpl never.

(** Unfold the monad of the methods. *)
Ltac munfold :=
  unfold bind, ok, raise, lift, get, modify, actor_at, log in *; simpl in *.


(** The argument of the [step] task that [send_actions] submits for one
    entry: the bare action of the agent for single-agent actors, the whole
    action dict otherwise (lines 277-283). *)
Definition step_payload `{ext : Externals} (s : RemoteBaseEnv) (actions : pyval)
  : res pyval :=
  if negb (multiagent s) && make_env_creates_actors s
  then py_getitem actions _DUMMY_AGENT_ID
  else Ok actions.

(** No handle of the pending table is one Ray has yet to hand out. *)
Definition fresh_handles (s : RemoteBaseEnv) : Prop :=
  ∀ h w, pending s !! h = Some w → h < next_ref s.

(** The events of terminating the workers [ws] in order, the first call
    getting object ref [r0]. *)
Definition terminate_events (r0 : nat) (ws : list EnvObj) : list event :=
  imap (λ k w, EvRemote w MTerminate (r0 + k)) ws.
Arguments terminate_events : simpl never.

(** ** Sample pools

    Concrete externals and dispatcher states on which the statements below
    are evaluated. *)

Definition sample_externals (get : ObjRef → res pyval)
    (factory : nat → Z → res EnvObj) (ids : EnvObj → res (gset key)) : Externals :=
  {| _DUMMY_AGENT_ID := KStr "agent0";
     ASYNC_RESET_RETURN := VStr "async_reset_return";
     ray_get := get; make_env := factory;
     local_spaces := λ _, (VObj 0, VObj 1);
     remote_spaces := λ _, Ok (VObj 0, VObj 1);
     remote_agent_ids := ids |}.

Definition sample_pool (creates multi restart : bool) (ws : list EnvObj)
    (p : list (ObjRef * EnvObj)) : RemoteBaseEnv :=
  {| num_envs := Z.of_nat (length ws); multiagent := multi;
     remote_env_batch_wait_ms := 0; has_worker := false;
     restart_failed_sub_environments := restart;
     make_env_creates_actors := creates;
     _observation_space := VObj 0; _action_space := VObj 1;
     actors := ws; pending := list_to_map p;
     next_ref := 100; next_actor := 100; trace := [] |}.

Definition boom : exn := Exn RayTaskError ["boom"].

(** Three workers, one pending task each; the task of worker 1 faults, the
    other two return a [reset()] outcome. *)
Definition three_workers : list EnvObj := [ActorHandle 0; ActorHandle 1; ActorHandle 2].
Definition three_pending : list (ObjRef * EnvObj) :=
  [(0, ActorHandle 0); (1, ActorHandle 1); (2, ActorHandle 2)].

Definition faulty_get (h : ObjRef) : res pyval :=
  match h with
  | 1 => Raise boom
  | _ => Ok (VTuple [VObj (10 * h); VObj (10 * h + 1)])
  end.

Definition fresh_factory (t : nat) (idx : Z) : res EnvObj := Ok (ActorHandle (50 + t)).
Definition no_ids (w : EnvObj) : res (gset key) := Raise (Exn AttributeError ["get_agent_ids"]).

Definition faulty_ext : Externals := sample_externals faulty_get fresh_factory no_ids.

(** One worker whose pending task returns [v]. *)
Definition one_worker : list EnvObj := [ActorHandle 0].
Definition one_pending : list (ObjRef * EnvObj) := [(0, ActorHandle 0)].
Definition const_ext (v : res pyval) : Externals :=
  sample_externals (λ _, v) fresh_factory no_ids.

Definition step_tuple : pyval :=
  VTuple [VObj 1; VFloat 2; VBool false; VBool true; VObj 3].
Definition short_tuple : pyval := VTuple [VObj 1; VFloat 2; VBool false; VObj 3].


(** What the wrapped environment of worker 0 was asked to do: one reset
    that showed agent ["a"], one step that showed agent ["b"]. *)
Definition sample_calls : list call :=
  [CallReset (Ok (VTuple [VDict [(KStr "a", VObj 1)]; VDict []]));
   CallStep (Ok (VTuple [VDict [(KStr "b", VObj 2)]; VDict []; VDict []; VDict []; VDict []]))].

Definition wrapper_ext : Externals :=
  sample_externals (λ _, Ok step_tuple) fresh_factory
    (λ _, Ok (_RemoteMultiAgentEnv_get_agent_ids (run_calls sample_calls))).

(** Two wrapped single-agent workers as [__init__] leaves them (object refs
    0 and 1 went to the space queries, 2 and 3 are the pending resets), and
    the state after polling the first reset and answering it with an
    action. *)
Definition two_wrapped : RemoteBaseEnv :=
  (__init__ (ext := wrapper_ext) None (blank 2 false 0 false false 0 0 [])).1.




(** Further sample pools: the three actor workers without and with
    restarts, a pool whose only pending handle names a worker that has been
    replaced, and externals whose factory or whose task faults in a
    particular way. *)
Definition actor_pool : RemoteBaseEnv :=
  sample_pool true false false three_workers three_pending.
Definition idle_actor_pool : RemoteBaseEnv :=
  sample_pool true false false three_workers [].
Definition stale_pool : RemoteBaseEnv :=
  sample_pool true false true [ActorHandle 52] [(5, ActorHandle 0)].
Definition restartable_pool : RemoteBaseEnv :=
  sample_pool true false true [ActorHandle 0] [(5, ActorHandle 0)].
Definition multi_actor_pool : RemoteBaseEnv :=
  sample_pool true true true one_worker one_pending.

Definition bare_fault : exn := Exn RayActorError [].
Definition broken_factory_ext : Externals :=
  sample_externals faulty_get (λ _ _, Raise boom) no_ids.

Definition reset_outcome : pyval := VTuple [VDict [(KStr "a", VObj 1)]; VDict []].
Definition none_reward_outcome : pyval :=
  VTuple [VDict [(KStr "a", VObj 1)]; VNone; VDict [(ALL, VBool true)];
          VDict [(ALL, VBool false)]; VDict []].
Definition list_outcome : pyval :=
  VList [VObj 1; VFloat 2; VBool false; VBool true; VObj 3].

Definition two_actions : pydict :=
  [(KInt 0, VDict [(KStr "agent0", VInt 1)]); (KInt 2, VDict [(KStr "agent0", VInt 0)])].

Section Properties.
Context {ext : Externals}.

(** * Properties *)

(** ** Dictionaries *)




(** ** Unpacking *)

Lemma unpack5_list_length {A} (xs : list A) :
  length xs ≠ 5 → ∃ e, unpack5_list xs = Raise e ∧ exc_class e = ValueError.
Proof.
  destruct xs as [|a [|b [|c [|d [|e [|f xs]]]]]]; simpl; intros; try done;
    eexists; split; done.
Qed.

Lemma decode_actor_arity (multi : bool) (xs : list pyval) :
  length xs ≠ 5 → length xs ≠ 2 → decode_actor multi (VTuple xs) = Raise assert_arity.
Proof.
  destruct multi, xs as [|a [|b [|c [|d [|e [|f xs]]]]]]; simpl; intros; done.
Qed.

(** ** What each method leaves untouched *)

Lemma same_config_refl s : same_config s s.
Proof. by repeat split. Qed.

Lemma same_config_trans s1 s2 s3 :
  same_config s1 s2 → same_config s2 s3 → same_config s1 s3.
Proof. unfold same_config. intros (?&?&?&?&?) (?&?&?&?&?). repeat split; congruence. Qed.

Lemma remote_call_frame w m s :
  pending (remote_call w m s).1 = pending s ∧
  actors (remote_call w m s).1 = actors s ∧
  same_config s (remote_call w m s).1.
Proof. destruct w; simpl; repeat split; done. Qed.

Lemma make_sub_env_frame idx s :
  pending (_make_sub_env idx s).1 = pending s ∧
  actors (_make_sub_env idx s).1 = actors s ∧
  same_config s (_make_sub_env idx s).1.
Proof.
  unfold _make_sub_env, log.
  destruct (make_env_creates_actors s) eqn:Hc; simpl.
  - destruct (make_env _ idx); simpl; [|done].
    destruct (has_worker s); simpl; [|done].
    destruct (list_getitem _ _); done.
  - destruct (has_worker s); done.
Qed.

Lemma try_restart_frame env_id s :
  pending (try_restart env_id s).1 = pending s ∧
  same_config s (try_restart env_id s).1.
Proof.
  unfold try_restart.
  set (s1 := match list_getitem (actors s) env_id with
             | Ok w => _ | Raise _ => _ end).
  assert (pending s1 = pending s ∧ actors s1 = actors s ∧ same_config s s1)
    as (Hp1 & Ha1 & Hc1).
  { subst s1. destruct (list_getitem (actors s) env_id) as [w|]; [|done].
    pose proof (remote_call_frame w MClose s) as (?&?&?).
    destruct (remote_call w MClose s) as [s' [?|?]]; done. }
  clearbody s1. munfold.
  destruct (list_getitem (actors s1) env_id) as [w|]; [|done].
  pose proof (remote_call_frame w MTerminate s1) as (Hp2 & Ha2 & Hc2).
  destruct (remote_call w MTerminate s1) as [s2 [r|e]]; simpl in *;
    [|split; [congruence | by eapply same_config_trans]].
  destruct env_id as [idx|]; simpl;
    [|split; [congruence | by eapply same_config_trans]].
  pose proof (make_sub_env_frame idx s2) as (Hp3 & Ha3 & Hc3).
  destruct (_make_sub_env idx s2) as [s3 [sub|e]]; simpl in *;
    [|split; [congruence | eauto using same_config_trans]].
  destruct (list_index (actors s3) (Some idx)); simpl;
    (split; [congruence | eauto using same_config_trans]).
Qed.

Lemma poll_step_frame b h s :
  pending (poll_step b h s).1 = delete h (pending s) ∧
  same_config s (poll_step b h s).1.
Proof.
  unfold poll_step.
  destruct (pending s !! h) as [actor|] eqn:Hh; simpl.
  2:{ split; [by rewrite delete_id | apply same_config_refl]. }
  destruct (list_index_of (actors s) actor) as [env_id|]; simpl; [|done].
  destruct (ray_get h) as [r|e]; simpl.
  { destruct (normalize _ _ r); done. }
  destruct (restart_failed_sub_environments s) eqn:Hr; simpl; [|done].
  destruct (exc_args e) as [|msg args]; [done|].
  match goal with |- context [try_restart ?i ?s0] =>
    pose proof (try_restart_frame i s0) as [Hp Hc];
    destruct (try_restart i s0) as [s' [[]|e']] end; simpl in *; [|done].
  destruct (normalize _ _ _); simpl; done.
Qed.

(** ** The [poll] loop *)

Lemma poll_loop_app l1 l2 b s :
  poll_loop (l1 ++ l2) b s = (do! b' ← poll_loop l1 b; poll_loop l2 b') s.
Proof.
  revert b s. induction l1 as [|h l1 IH]; intros b s; simpl; [done|].
  unfold bind. destruct (poll_step b h s) as [s1 [b1|e]]; [|done].
  by rewrite IH.
Qed.

Lemma poll_step_state b1 b2 h s : (poll_step b1 h s).1 = (poll_step b2 h s).1.
Proof.
  unfold poll_step.
  destruct (pending s !! h) as [actor|]; [|done].
  destruct (list_index_of _ actor) as [env_id|]; [|done].
  destruct (ray_get h) as [r|e]; simpl.
  { destruct (normalize _ _ r); done. }
  destruct (restart_failed_sub_environments _); [|done].
  destruct (exc_args e); [done|].
  destruct (try_restart _ _) as [s' [[]|e']]; simpl; [|done].
  destruct (normalize _ _ _); done.
Qed.

(** A successful iteration took a live handle, found its slot and stored
    one record under that slot in all five dicts. *)
Lemma poll_step_ok b h s s' b' :
  poll_step b h s = (s', Ok b') →
  ∃ w i r, pending s !! h = Some w ∧ list_index_of (actors s) w = Ok i ∧
           b' = store i r (add_env_id i b).
Proof.
  unfold poll_step. intros H.
  destruct (pending s !! h) as [actor|]; [|done].
  destruct (list_index_of _ actor) as [env_id|] eqn:Hi; [|done].
  exists actor, env_id. simpl in H.
  destruct (ray_get h) as [r|e]; simpl in H.
  { destruct (normalize _ _ r) as [r'|] eqn:Hn; simplify_eq. eauto. }
  destruct (restart_failed_sub_environments _); [|done].
  destruct (exc_args e); [done|].
  destruct (try_restart _ _) as [s1 [[]|e']]; simpl in H; [|done].
  destruct (normalize _ _ _) as [r'|]; simplify_eq. eauto.
Qed.

Lemma poll_loop_frame ready b s :
  pending (poll_loop ready b s).1 ⊆ pending s ∧
  same_config s (poll_loop ready b s).1.
Proof.
  revert b s. induction ready as [|h ready IH]; intros b s; simpl.
  { split; [done | apply same_config_refl]. }
  unfold bind. pose proof (poll_step_frame b h s) as [Hp Hc].
  destruct (poll_step b h s) as [s1 [b1|e]]; simpl in *.
  - destruct (IH b1 s1) as [Hp' Hc']. split.
    + etrans; [done|]. rewrite Hp. apply delete_subseteq.
    + by eapply same_config_trans.
  - split; [|done]. rewrite Hp. apply delete_subseteq.
Qed.

Lemma poll_loop_ok_pending ready b s s' b' :
  poll_loop ready b s = (s', Ok b') →
  ∀ h, pending s' !! h = if decide (h ∈ ready) then None else pending s !! h.
Proof.
  revert b s. induction ready as [|h0 ready IH]; intros b s; simpl.
  { unfold ok. by intros [= <- <-] h. }
  unfold bind. pose proof (poll_step_frame b h0 s) as [Hp Hc].
  destruct (poll_step b h0 s) as [s1 [b1|e]]; simpl in *; [|done].
  intros H h. rewrite (IH _ _ H h), Hp.
  destruct (decide (h ∈ ready)) as [Hin|Hin].
  { by rewrite decide_True by (by right). }
  destruct (decide (h = h0)) as [->|Hne].
  - rewrite lookup_delete_eq. by rewrite decide_True by left.
  - rewrite lookup_delete_ne by done.
    rewrite decide_False; [done|]. rewrite elem_of_cons. tauto.
Qed.

(** Where the loop stops when an iteration raises. *)
Lemma poll_raises_at rounds pre h post s s1 b s2 e :
  wait_ready rounds = Some (pre ++ h :: post) →
  poll_loop pre empty_batch s = (s1, Ok b) →
  poll_step b h s1 = (s2, Raise e) →
  poll rounds s = Some (s2, Raise e).
Proof.
  intros Hw Hpre Hstep. unfold poll. rewrite Hw. f_equal.
  unfold bind at 1. rewrite poll_loop_app. unfold bind at 1. rewrite Hpre.
  simpl. unfold bind at 1. by rewrite Hstep.
Qed.

Lemma keys_agree_store i r b :
  keys_agree b → keys_agree (store i r (add_env_id i b)).
Proof.
  destruct r as [[[[ob rew] te] tr] info]. unfold keys_agree; simpl.
  rewrite !dom_insert_L. intros (-> & -> & -> & -> & ->). done.
Qed.

Lemma poll_loop_keys ready b s s' b' :
  poll_loop ready b s = (s', Ok b') →
  keys_agree b →
  keys_agree b' ∧ env_ids b' = env_ids b ∪ resolved_env_ids ready s.
Proof.
  revert b s. induction ready as [|h ready IH]; intros b s; simpl.
  { munfold. intros [= <- <-] ?. split; [done | set_solver]. }
  unfold bind. destruct (poll_step b h s) as [s1 [b1|e]] eqn:Hstep; [|done].
  intros Hloop Hb.
  destruct (poll_step_ok _ _ _ _ _ Hstep) as (w & i & r & Hw & Hi & ->).
  destruct (IH _ _ Hloop (keys_agree_store i r b Hb)) as [Hk He].
  split; [done|]. rewrite He. unfold target. rewrite Hw, Hi.
  rewrite (poll_step_state empty_batch b), Hstep.
  destruct r as [[[[??]?]?]?]; simpl. set_solver.
Qed.

(** An iteration whose handle resolves to a value: the handle leaves the
    table and nothing else changes; the value is normalized or rejected. *)
Lemma poll_step_value b h s w i ret :
  pending s !! h = Some w → list_index_of (actors s) w = Ok i →
  ray_get h = Ok ret →
  poll_step b h s =
    (set_pending (delete h (pending s)) s,
     match normalize (make_env_creates_actors s) (multiagent s) ret with
     | Ok r => Ok (store i r (add_env_id i b))
     | Raise e => Raise e
     end).
Proof.
  intros Hw Hi Hg. unfold poll_step. rewrite Hw. simpl. rewrite Hi, Hg. simpl.
  by destruct (normalize _ _ ret).
Qed.

Lemma poll_step_fault_raise b h s w i e :
  pending s !! h = Some w → list_index_of (actors s) w = Ok i →
  ray_get h = Raise e → restart_failed_sub_environments s = false →
  poll_step b h s = (set_pending (delete h (pending s)) s, Raise e).
Proof.
  intros Hw Hi Hg Hr. unfold poll_step. rewrite Hw. simpl. rewrite Hi, Hg. simpl.
  by rewrite Hr.
Qed.

(** Without restarts a [poll] loop never touches the pool. *)
Lemma poll_step_no_restart_actors b h s :
  restart_failed_sub_environments s = false →
  actors (poll_step b h s).1 = actors s.
Proof.
  intros Hr. unfold poll_step.
  destruct (pending s !! h) as [actor|]; [|done]. simpl.
  destruct (list_index_of _ actor) as [env_id|]; [|done].
  destruct (ray_get h) as [r|e]; simpl; [by destruct (normalize _ _ r)|].
  by rewrite Hr.
Qed.

Lemma poll_loop_no_restart_actors ready b s :
  restart_failed_sub_environments s = false →
  actors (poll_loop ready b s).1 = actors s.
Proof.
  revert b s. induction ready as [|h ready IH]; intros b s Hr; simpl; [done|].
  unfold bind. pose proof (poll_step_no_restart_actors b h s Hr) as Ha.
  pose proof (poll_step_frame b h s) as [_ (_&_&_&Hr'&_)].
  destruct (poll_step b h s) as [s1 [b1|e]]; simpl in *; [|done].
  rewrite IH; [done | congruence].
Qed.

(** An iteration whose handle resolves to a fault, with restarts enabled:
    once the restart has gone through, multi-agent pools and pools of
    wrapper actors store the substitute tuple as it is. *)
Lemma poll_step_fault_restart b h s w i e msg args s' :
  pending s !! h = Some w → list_index_of (actors s) w = Ok i →
  ray_get h = Raise e → restart_failed_sub_environments s = true →
  exc_args e = msg :: args →
  try_restart (Some (Z.of_nat i))
    (log (EvLogException msg) (set_pending (delete h (pending s)) s)) = (s', Ok tt) →
  multiagent s = true ∨ make_env_creates_actors s = false →
  poll_step b h s =
    (s', Ok (store i (VExc e, VDict [], VDict [(ALL, VBool true)],
                      VDict [(ALL, VBool false)], VDict [])
               (add_env_id i b))).
Proof.
  intros Hw Hi Hg Hr Ha Hrestart Hmode. unfold poll_step.
  rewrite Hw. simpl. rewrite Hi, Hg. simpl. rewrite Hr, Ha.
  pose proof (try_restart_frame (Some (Z.of_nat i))
                (log (EvLogException msg) (set_pending (delete h (pending s)) s)))
    as [_ (_ & Hm & _ & _ & Hc)].
  unfold log in *. rewrite Hrestart in *. simpl in *. rewrite Hm, Hc.
  destruct Hmode as [->| ->]; [|done]. by destruct (make_env_creates_actors s).
Qed.

(** ** Claims about [poll] *)

(** C2. When resolving a ready handle raises a fault and
    [restart_failed_sub_environments] is false, [poll] raises that very
    fault and returns no batch, whatever handles follow in the same wait
    round; the handles processed before it (whose results had already been
    normalized into the batch) and the faulting handle itself are gone from
    the pending table, so those results are lost. *)
Theorem poll_fault_without_restart rounds pre h post s s1 b w i e :
  wait_ready rounds = Some (pre ++ h :: post) →
  restart_failed_sub_environments s = false →
  poll_loop pre empty_batch s = (s1, Ok b) →
  pending s !! h = Some w → h ∉ pre →
  list_index_of (actors s) w = Ok i →
  ray_get h = Raise e →
  ∃ s', poll rounds s = Some (s', Raise e) ∧
        (∀ h', h' ∈ pre ++ [h] → pending s' !! h' = None) ∧
        (∀ h', h' ∉ pre ++ [h] → pending s' !! h' = pending s !! h') ∧
        actors s' = actors s.
Proof.
  intros Hw Hr Hpre Hh Hnin Hi Hg.
  pose proof (poll_loop_ok_pending _ _ _ _ _ Hpre) as Hp1.
  pose proof (poll_loop_no_restart_actors pre empty_batch s Hr) as Ha1.
  pose proof (poll_loop_frame pre empty_batch s) as [_ (_&_&_&Hr1&_)].
  rewrite Hpre in Ha1, Hr1; simpl in Ha1, Hr1.
  assert (pending s1 !! h = Some w) as Hh1.
  { rewrite Hp1. by rewrite decide_False. }
  eexists. split.
  { eapply poll_raises_at; [done..|].
    eapply poll_step_fault_raise; [done | by rewrite Ha1 | done | congruence]. }
  simpl. split_and!; [| |done].
  - intros h' [Hin| ->%list_elem_of_singleton]%elem_of_app.
    + destruct (decide (h' = h)) as [->|]; [done|].
      rewrite lookup_delete_ne by done. rewrite Hp1. by rewrite decide_True.
    + apply lookup_delete_eq.
  - intros h' Hn. rewrite elem_of_app, list_elem_of_singleton in Hn.
    rewrite lookup_delete_ne by naive_solver.
    rewrite Hp1. rewrite decide_False; [done | naive_solver].
Qed.

(** C3. When [poll] returns, the five dicts [obs], [rewards], [terminateds],
    [truncateds] and [infos] all have the same key set, namely the set of
    env_ids of the handles resolved in this call (the set the source
    collects in [env_ids] and logs), and the sixth dict is empty. *)
Theorem poll_key_sets rounds s s' o r te tr inf extras :
  poll rounds s = Some (s', Ok (o, r, te, tr, inf, extras)) →
  ∃ ready, wait_ready rounds = Some ready ∧
    dom o = resolved_env_ids ready s ∧ dom r = resolved_env_ids ready s ∧
    dom te = resolved_env_ids ready s ∧ dom tr = resolved_env_ids ready s ∧
    dom inf = resolved_env_ids ready s ∧ extras = ∅ ∧
    head (trace s') = Some (EvLogDebug (resolved_env_ids ready s)).
Proof.
  unfold poll. destruct (wait_ready rounds) as [ready|]; [|done].
  intros [= H]. exists ready. split; [done|]. revert H. munfold.
  destruct (poll_loop ready empty_batch s) as [s1 [b|e]] eqn:Hloop; [|done].
  intros [= <- <- <- <- <- <- <-].
  destruct (poll_loop_keys _ _ _ _ _ Hloop) as [(?&?&?&?&?) He]; [done|].
  simpl in He. rewrite union_empty_l_L in He. rewrite <- He. simpl.
  split_and!; done.
Qed.

(** C5 (amended). A resolved outcome that is a tuple of arity other than 5
    and 2 makes [poll] raise at once, whatever [restart_failed_sub_environments]
    is: the handle has been taken from the table and nothing else has
    happened (no restart, no retry).  For workers that are actors
    themselves the error is the [AssertionError] of the arity check; for
    wrapped workers the outcome is unpacked into five names and the error
    is the [ValueError] of that unpacking. *)
Theorem poll_arity_violation rounds pre h post s s1 b w i xs :
  wait_ready rounds = Some (pre ++ h :: post) →
  poll_loop pre empty_batch s = (s1, Ok b) →
  pending s1 !! h = Some w →
  list_index_of (actors s1) w = Ok i →
  ray_get h = Ok (VTuple xs) →
  length xs ≠ 5 → length xs ≠ 2 →
  ∃ e, poll rounds s = Some (set_pending (delete h (pending s1)) s1, Raise e) ∧
       exc_class e =
         (if make_env_creates_actors s then AssertionError else ValueError).
Proof.
  intros Hw Hpre Hh Hi Hg H5 H2.
  pose proof (poll_loop_frame pre empty_batch s) as [_ (_&_&_&_&Hc)].
  rewrite Hpre in Hc; simpl in Hc.
  pose proof (poll_step_value b h s1 w i _ Hh Hi Hg) as Hstep.
  unfold normalize in Hstep. rewrite Hc in Hstep.
  destruct (make_env_creates_actors s).
  - rewrite decode_actor_arity in Hstep by done. simpl in Hstep.
    eexists. split; [by eapply poll_raises_at|done].
  - unfold unpack5 in Hstep. simpl in Hstep.
    destruct (unpack5_list_length xs H5) as (e & He & Hcls).
    rewrite He in Hstep. eexists. split; [by eapply poll_raises_at|done].
Qed.

(** ** Claims about the normalizer *)

Lemma single_step_wrapped env_step action a o r t tr i :
  py_getitem action _DUMMY_AGENT_ID = Ok a →
  env_step a = Ok (VTuple [o; r; t; tr; i]) →
  _RemoteSingleAgentEnv_step env_step action =
    Ok (let '(ob, rew, te, tru, inf) := single_agent_record o r t tr i in
        VTuple [ob; rew; te; tru; inf]).
Proof.
  intros Ha Hs. unfold _RemoteSingleAgentEnv_step. rewrite Ha. simpl.
  rewrite Hs. simpl. unfold py_getitem. simpl. rewrite !decide_True by done.
  done.
Qed.

(** C4. In single-agent mode a step outcome [(o, r, t, tr, i)] ends up in
    the batch as [obs = {AGENT: o}], [reward = {AGENT: r}],
    [terminated = {AGENT: t, "__all__": t}],
    [truncated = {AGENT: tr, "__all__": tr}], [info = {AGENT: i}]: either
    [poll] builds the record from the raw tuple of a worker that is an actor
    itself, or the single-agent wrapper builds it in [step] and [poll]
    passes it on. *)
Theorem single_agent_step_record b h s w env_id o r t tr i :
  pending s !! h = Some w →
  list_index_of (actors s) w = Ok env_id →
  multiagent s = false →
  (make_env_creates_actors s = true ∧ ray_get h = Ok (VTuple [o; r; t; tr; i])) ∨
  (make_env_creates_actors s = false ∧
   ∃ env_step action a,
     py_getitem action _DUMMY_AGENT_ID = Ok a ∧
     env_step a = Ok (VTuple [o; r; t; tr; i]) ∧
     ray_get h = _RemoteSingleAgentEnv_step env_step action) →
  poll_step b h s =
    (set_pending (delete h (pending s)) s,
     Ok (store env_id (single_agent_record o r t tr i) (add_env_id env_id b))) ∧
  (_DUMMY_AGENT_ID ≠ ALL →
   single_agent_record o r t tr i =
     (VDict [(_DUMMY_AGENT_ID, o)], VDict [(_DUMMY_AGENT_ID, r)],
      VDict [(_DUMMY_AGENT_ID, t); (ALL, t)],
      VDict [(_DUMMY_AGENT_ID, tr); (ALL, tr)],
      VDict [(_DUMMY_AGENT_ID, i)])).
Proof.
  intros Hw Hi Hm Hcase. split.
  - destruct Hcase as [[Hc Hg]|(Hc & env_step & action & a & Ha & Hs & Hg)].
    + rewrite (poll_step_value b h s w env_id _ Hw Hi Hg). by rewrite Hc, Hm.
    + rewrite (single_step_wrapped _ _ _ _ _ _ _ _ Ha Hs) in Hg.
      rewrite (poll_step_value b h s w env_id _ Hw Hi Hg). by rewrite Hc.
  - intros Hne. unfold single_agent_record, dict_lit. simpl.
    by rewrite !decide_False by done.
Qed.

(** What a successful iteration normalized: the resolved value, or the
    tuple substituted for a fault after a restart. *)
Lemma poll_step_ok_record b h s s' b' :
  poll_step b h s = (s', Ok b') →
  ∃ i ret r,
    target s h = Some i ∧
    match ray_get h with Ok v => ret = v | Raise e => ret = fault_ret e end ∧
    normalize (make_env_creates_actors s) (multiagent s) ret = Ok r ∧
    b' = store i r (add_env_id i b).
Proof.
  unfold poll_step, target. intros H.
  destruct (pending s !! h) as [actor|]; [|done].
  destruct (list_index_of _ actor) as [env_id|] eqn:Hi; [|done].
  exists env_id. simpl in H.
  destruct (ray_get h) as [r|e]; simpl in H.
  { destruct (normalize _ _ r) as [r'|] eqn:Hn; simplify_eq.
    by eexists _, _. }
  destruct (restart_failed_sub_environments _); [|done].
  destruct (exc_args e); [done|].
  match type of H with context [try_restart ?i ?s0] =>
    pose proof (try_restart_frame i s0) as [_ (_&Hm&_&_&Hc)];
    destruct (try_restart i s0) as [s1 [[]|e']] end; simpl in *; [|done].
  rewrite Hm, Hc in H.
  destruct (normalize _ _ _) as [r'|] eqn:Hn; simplify_eq.
  by eexists _, _.
Qed.




(** ** Claims about [try_restart] *)

(** C7 (amended). [try_restart] never touches the pending table: whatever
    handles it held before the call it holds afterwards, including one of
    the replaced worker.  What [poll] does remove is the handle it is
    resolving, and it removes it before the fault handling starts, so the
    handle whose fault led [poll] to restart a worker is no longer pending
    afterwards. *)
Theorem try_restart_keeps_pending :
  (∀ env_id s, pending (try_restart env_id s).1 = pending s) ∧
  (∀ b h s, pending (poll_step b h s).1 = delete h (pending s) ∧
            pending (poll_step b h s).1 !! h = None).
Proof.
  split.
  - intros env_id s. apply try_restart_frame.
  - intros b h s. destruct (poll_step_frame b h s) as [Hp _].
    split; [done|]. rewrite Hp. apply lookup_delete_eq.
Qed.

(** ** The single-outstanding-task invariant *)







Lemma reset_all_frame l p s :
  actors (reset_all l p s).1 = actors s.
Proof.
  revert p s. induction l as [|a l IH]; intros p s; simpl; [done|].
  unfold bind. pose proof (remote_call_frame a (MReset VNone VNone) s) as (_ & Ha & _).
  destruct (remote_call a _ s) as [s1 [r|e]]; simpl in *; [|done].
  by rewrite IH.
Qed.











(** ** Construction *)









(** ** Agent identifiers of the multi-agent wrapper *)

Lemma elem_of_foldl_add (ks : list key) (ids : gset key) k :
  k ∈ foldl (λ ids agent_id, {[agent_id]} ∪ ids) ids ks ↔ k ∈ ids ∨ k ∈ ks.
Proof.
  revert ids. induction ks as [|k0 ks IH]; intros ids; simpl.
  - rewrite elem_of_nil. tauto.
  - rewrite IH, elem_of_cons. set_solver.
Qed.

Lemma reset_agent_ids r self k :
  k ∈ agent_ids (_RemoteMultiAgentEnv_reset r self).1 ↔
  k ∈ agent_ids self ∨ ∃ ks, reset_keys (CallReset r) = Some ks ∧ k ∈ ks.
Proof.
  unfold reset_keys, _RemoteMultiAgentEnv_reset.
  destruct (res_bind r _) as [[[ob info] ks]|] eqn:Hr; simpl.
  - rewrite elem_of_foldl_add.
    destruct r as [v|]; [|done]. simpl in Hr.
    destruct (unpack2 v) as [[ob' info']|]; [|done]. simpl in Hr.
    destruct ob' as [| | | | | | | | |d]; simpl in Hr; simplify_eq.
    split; intros [?|?]; eauto. right. by destruct H as (? & [= <-] & ?).
  - split; [auto|]. by intros [?|(? & ? & ?)].
Qed.

Lemma run_calls_agent_ids cs self k :
  k ∈ agent_ids (foldl run_call self cs) ↔
  k ∈ agent_ids self ∨ ∃ c ks, c ∈ cs ∧ reset_keys c = Some ks ∧ k ∈ ks.
Proof.
  revert self. induction cs as [|c cs IH]; intros self; simpl.
  - split; [auto|]. intros [?|(c & ks & Hin & _)]; [done|].
    by apply elem_of_nil in Hin.
  - rewrite IH. destruct c as [r|r]; simpl.
    + rewrite reset_agent_ids. split.
      * intros [[?|(ks & ? & ?)]|(c & ks & ? & ? & ?)]; eauto.
        -- right. exists (CallReset r), ks. split_and!; [left|done..].
        -- right. exists c, ks. split_and!; [by right|done..].
      * intros [?|(c & ks & [->|?]%elem_of_cons & ? & ?)]; eauto 10.
    + split.
      * intros [?|(c & ks & ? & ? & ?)]; eauto.
        right. exists c, ks. split_and!; [by right|done..].
      * intros [?|(c & ks & [->|?]%elem_of_cons & ? & ?)]; eauto 10. done.
Qed.

(** C10. For a multi-agent pool of wrapper actors, [get_agent_ids] returns
    the agent identifiers that were observation keys of some [reset()] that
    worker 0 has completed since it was built: nothing before the first
    such reset, never fewer after a further call, and nothing new after a
    [step()]. *)
Theorem get_agent_ids_from_resets s cs w :
  multiagent s = true → make_env_creates_actors s = false →
  list_getitem (actors s) (Some 0%Z) = Ok w → is_actor w = true →
  remote_agent_ids w = Ok (_RemoteMultiAgentEnv_get_agent_ids (run_calls cs)) →
  ∃ s' ids,
    get_agent_ids s = (s', Ok ids) ∧
    (∀ k, k ∈ ids ↔ ∃ c ks, c ∈ cs ∧ reset_keys c = Some ks ∧ k ∈ ks) ∧
    ((∀ c, c ∈ cs → reset_keys c = None) → ids = ∅) ∧
    (∀ c, ids ⊆ agent_ids (run_calls (cs ++ [c]))) ∧
    (∀ r, agent_ids (run_calls (cs ++ [CallStep r])) = ids).
Proof.
  intros Hm Hc Hw Ha Hq. unfold get_agent_ids. munfold. rewrite Hm, Hw. simpl.
  destruct w as [a|]; [|done]. simpl. rewrite Hq.
  eexists _, _. split; [done|].
  unfold _RemoteMultiAgentEnv_get_agent_ids, run_calls.
  assert (∀ k, k ∈ agent_ids (foldl run_call _RemoteMultiAgentEnv_init cs) ↔
               ∃ c ks, c ∈ cs ∧ reset_keys c = Some ks ∧ k ∈ ks) as Hiff.
  { intros k. rewrite run_calls_agent_ids. simpl. set_solver. }
  split_and!.
  - done.
  - intros Hnone. apply set_eq. intros k. rewrite Hiff. split; [|set_solver].
    intros (c & ks & Hin & Hk & _). by rewrite (Hnone c Hin) in Hk.
  - intros c k. rewrite foldl_app. simpl.
    destruct c as [r|r]; simpl; [|done].
    rewrite reset_agent_ids. by left.
  - intros r. by rewrite foldl_app.
Qed.

(** * Further properties of the methods *)

(** ** [poll] *)

Lemma wait_ready_nonempty rounds ready :
  wait_ready rounds = Some ready → ready ≠ [].
Proof.
  induction rounds as [|[|h r] rounds IH]; simpl; [done | done |].
  by intros [= <-].
Qed.

Lemma poll_loop_ok_ready ready b s s' b' :
  poll_loop ready b s = (s', Ok b') →
  NoDup ready ∧ ∀ h, h ∈ ready → is_Some (pending s !! h).
Proof.
  revert b s. induction ready as [|h0 ready IH]; intros b s; simpl.
  { intros _. split; [constructor|]. by intros h ?%elem_of_nil. }
  unfold bind. pose proof (poll_step_frame b h0 s) as [Hp _].
  destruct (poll_step b h0 s) as [s1 [b1|e]] eqn:Hstep; [|done].
  intros Hloop. simpl in Hp.
  destruct (poll_step_ok _ _ _ _ _ Hstep) as (w & i & r & Hw & _ & _).
  destruct (IH _ _ Hloop) as [Hnd Hin]. split.
  - constructor; [|done]. intros Hh0. destruct (Hin _ Hh0) as [w' Hw'].
    by rewrite Hp, lookup_delete_eq in Hw'.
  - intros h [->|Hh]%elem_of_cons; [by eexists|].
    destruct (Hin _ Hh) as [w' Hw']. rewrite Hp in Hw'.
    apply lookup_delete_Some in Hw' as [_ Hw']. by eexists.
Qed.

(** X1. A [poll] that returns has consumed exactly the handles of its wait
    round: the round was not empty, listed no handle twice, every listed
    handle was pending, and afterwards the pending table is the old one
    without them. *)
Theorem poll_consumes_ready_handles rounds s s' batch :
  poll rounds s = Some (s', Ok batch) →
  ∃ ready,
    wait_ready rounds = Some ready ∧ ready ≠ [] ∧ NoDup ready ∧
    (∀ h, h ∈ ready → is_Some (pending s !! h)) ∧
    (∀ h, pending s' !! h = if decide (h ∈ ready) then None else pending s !! h).
Proof.
  unfold poll. destruct (wait_ready rounds) as [ready|] eqn:Hw; [|done].
  intros [= H]. exists ready. revert H. munfold.
  destruct (poll_loop ready empty_batch s) as [s1 [b|e]] eqn:Hloop; [|done].
  intros [= <- <-].
  destruct (poll_loop_ok_ready _ _ _ _ _ Hloop) as [Hnd Hin].
  split_and!; [done | by eapply wait_ready_nonempty | done | done |].
  intros h. simpl. by apply (poll_loop_ok_pending _ _ _ _ _ Hloop).
Qed.

(** X2. A batch that [poll] returns is never empty. *)
Theorem poll_batch_not_empty rounds s s' (o r te tr inf extras : gmap nat pyval) :
  poll rounds s = Some (s', Ok (o, r, te, tr, inf, extras)) →
  o ≠ ∅ ∧ r ≠ ∅ ∧ te ≠ ∅ ∧ tr ≠ ∅ ∧ inf ≠ ∅.
Proof.
  unfold poll. destruct (wait_ready rounds) as [ready|] eqn:Hw; [|done].
  apply wait_ready_nonempty in Hw.
  intros [= H]. revert H. munfold.
  destruct (poll_loop ready empty_batch s) as [s1 [b|e]] eqn:Hloop; [|done].
  intros [= <- <- <- <- <- <- <-].
  destruct (poll_loop_keys _ _ _ _ _ Hloop) as [(Ho & Hr & Hte & Htr & Hi) He];
    [done|].
  destruct ready as [|h ready]; [done|]. simpl in Hloop. unfold bind in Hloop.
  destruct (poll_step empty_batch h s) as [s2 [b2|e]] eqn:Hstep; [|done].
  destruct (poll_step_ok _ _ _ _ _ Hstep) as (w & i & rec & Hpw & Hi' & _).
  assert (i ∈ env_ids b) as Hin.
  { rewrite He. simpl. unfold target. rewrite Hpw, Hi'. set_solver. }
  split_and!; intros Hempty;
    [rewrite <- Ho in Hin | rewrite <- Hr in Hin | rewrite <- Hte in Hin
    | rewrite <- Htr in Hin | rewrite <- Hi in Hin];
    apply elem_of_dom in Hin as [x Hx]; by rewrite Hempty, lookup_empty in Hx.
Qed.

Lemma record_at_store i i' r b :
  record_at i' (poll_return (store i r (add_env_id i b))) =
    if decide (i' = i) then Some r else record_at i' (poll_return b).
Proof.
  destruct r as [[[[ob rew] te] tr] info].
  unfold record_at, poll_return, poll_result, MultiEnvDict. simpl.
  case_decide as Hi.
  - subst. by rewrite !lookup_insert_eq.
  - by rewrite !lookup_insert_ne.
Qed.

Lemma poll_loop_records (Q : nat → five → Prop) ready b s s' b' :
  poll_loop ready b s = (s', Ok b') →
  (∀ i rec, record_at i (poll_return b) = Some rec → Q i rec) →
  (∀ h ret rec i, h ∈ ready →
     match ray_get h with Ok v => ret = v | Raise e => ret = fault_ret e end →
     normalize (make_env_creates_actors s) (multiagent s) ret = Ok rec → Q i rec) →
  ∀ i rec, record_at i (poll_return b') = Some rec → Q i rec.
Proof.
  revert b s. induction ready as [|h ready IH]; intros b s; simpl.
  { unfold ok. intros [= <- <-] Hb _. done. }
  unfold bind. pose proof (poll_step_frame b h s) as [_ (_ & Hm & _ & _ & Hc)].
  destruct (poll_step b h s) as [s1 [b1|e]] eqn:Hstep; [|done].
  simpl in Hm, Hc. intros Hloop Hb Hready.
  destruct (poll_step_ok_record _ _ _ _ _ Hstep) as (i0 & ret & r & _ & Hret & Hn & ->).
  eapply (IH _ _ Hloop).
  - intros i rec. rewrite record_at_store. case_decide.
    + intros [= <-]. eapply Hready; [left | done | done].
    + apply Hb.
  - intros h' ret' rec' i' Hin. rewrite Hm, Hc. apply Hready. by right.
Qed.

(** X3. [poll] invents no record: whatever a returned batch holds for an
    env_id is the normalization of what one of the ready handles resolved
    to (its value, or the substitute tuple if it faulted). *)
Theorem poll_records_come_from_ready_handles rounds s s' batch i rec :
  poll rounds s = Some (s', Ok batch) →
  record_at i batch = Some rec →
  ∃ ready h ret,
    wait_ready rounds = Some ready ∧ h ∈ ready ∧
    match ray_get h with Ok v => ret = v | Raise e => ret = fault_ret e end ∧
    normalize (make_env_creates_actors s) (multiagent s) ret = Ok rec.
Proof.
  unfold poll. destruct (wait_ready rounds) as [ready|] eqn:Hw; [|done].
  intros [= H]. revert H. munfold.
  destruct (poll_loop ready empty_batch s) as [s1 [b|e]] eqn:Hloop; [|done].
  intros [= <- <-] Hrec. exists ready.
  eapply (poll_loop_records
            (λ _ rec, ∃ h ret, Some ready = Some ready ∧ h ∈ ready ∧
               match ray_get h with Ok v => ret = v | Raise e => ret = fault_ret e end ∧
               normalize (make_env_creates_actors s) (multiagent s) ret = Ok rec));
    [exact Hloop | | | exact Hrec].
  - intros i' rec'. unfold record_at, poll_return, poll_result, MultiEnvDict.
    simpl. by rewrite lookup_empty.
  - intros h ret rec' _ Hin Hret Hn. by exists h, ret.
Qed.

Lemma set_pending_id s : set_pending (pending s) s = s.
Proof. by destruct s. Qed.

Lemma poll_step_no_restart_state b h s :
  restart_failed_sub_environments s = false →
  (poll_step b h s).1 = set_pending (delete h (pending s)) s.
Proof.
  intros Hr. unfold poll_step.
  destruct (pending s !! h) as [actor|] eqn:Hh; simpl.
  2:{ by rewrite delete_id, set_pending_id. }
  destruct (list_index_of _ actor) as [env_id|]; [|done].
  destruct (ray_get h) as [r|e]; simpl; [by destruct (normalize _ _ r)|].
  by rewrite Hr.
Qed.

Lemma poll_loop_no_restart_state ready b s :
  restart_failed_sub_environments s = false →
  ∃ p, (poll_loop ready b s).1 = set_pending p s ∧ p ⊆ pending s.
Proof.
  revert b s. induction ready as [|h ready IH]; intros b s Hr; simpl.
  { exists (pending s). by rewrite set_pending_id. }
  unfold bind. pose proof (poll_step_no_restart_state b h s Hr) as Hs.
  destruct (poll_step b h s) as [s1 [b1|e]]; simpl in *; subst s1.
  - destruct (IH b1 (set_pending (delete h (pending s)) s)) as (p & -> & Hp); [done|].
    exists p. split; [done|]. etrans; [exact Hp|]. apply delete_subseteq.
  - eexists. split; [done|]. apply delete_subseteq.
Qed.

(** X4. Without restarts [poll] is passive: it submits no task, creates no
    worker and leaves the pool alone; all it does is take handles out of
    the pending table and, when it returns, log the env_ids. *)
Theorem poll_without_restart_is_passive rounds s s' r :
  restart_failed_sub_environments s = false →
  poll rounds s = Some (s', r) →
  actors s' = actors s ∧ next_ref s' = next_ref s ∧ next_actor s' = next_actor s ∧
  pending s' ⊆ pending s ∧
  (trace s' = trace s ∨ ∃ ids, trace s' = EvLogDebug ids :: trace s).
Proof.
  intros Hr. unfold poll. destruct (wait_ready rounds) as [ready|]; [|done].
  intros [= H]. revert H. munfold.
  destruct (poll_loop_no_restart_state ready empty_batch s Hr) as (p & Hs & Hp).
  destruct (poll_loop ready empty_batch s) as [s1 [b|e]]; simpl in Hs; subst s1;
    intros [= <- <-]; simpl; split_and!; eauto.
Qed.

Lemma list_index_of_not_in (l : list EnvObj) w :
  w ∉ l → list_index_of l w = Raise exn_not_in_list.
Proof.
  intros Hw. unfold list_index_of.
  destruct (list_find _ l) as [[j y]|] eqn:Hf; [|done].
  apply list_find_Some in Hf as (Hj & -> & _).
  destruct Hw. by eapply list_elem_of_lookup_2.
Qed.

(** X5. A ready handle whose worker is no longer in the pool makes [poll]
    raise the [ValueError] of [list.index], before the handle is resolved
    and whatever the restart setting: the handle has left the pending
    table and nothing else has happened. *)
Theorem poll_stale_handle_raises rounds pre h post s s1 b w :
  wait_ready rounds = Some (pre ++ h :: post) →
  poll_loop pre empty_batch s = (s1, Ok b) →
  pending s1 !! h = Some w →
  w ∉ actors s1 →
  poll rounds s =
    Some (set_pending (delete h (pending s1)) s1, Raise exn_not_in_list).
Proof.
  intros Hw Hpre Hh Hnin. eapply poll_raises_at; [done | done |].
  unfold poll_step. rewrite Hh. simpl. by rewrite list_index_of_not_in.
Qed.

(** X6. With restarts enabled, a fault whose [args] tuple is empty makes
    [poll] raise the [IndexError] of [e.args[0]]: the worker is not
    restarted and no record is produced. *)
Theorem poll_fault_without_args_raises rounds pre h post s s1 b w i e :
  wait_ready rounds = Some (pre ++ h :: post) →
  poll_loop pre empty_batch s = (s1, Ok b) →
  restart_failed_sub_environments s = true →
  pending s1 !! h = Some w →
  list_index_of (actors s1) w = Ok i →
  ray_get h = Raise e → exc_args e = [] →
  poll rounds s =
    Some (set_pending (delete h (pending s1)) s1, Raise exn_tuple_range).
Proof.
  intros Hw Hpre Hr Hh Hi Hg Ha.
  pose proof (poll_loop_frame pre empty_batch s) as [_ (_&_&_&Hr1&_)].
  rewrite Hpre in Hr1; simpl in Hr1.
  eapply poll_raises_at; [done | done |].
  unfold poll_step. rewrite Hh. simpl. rewrite Hi, Hg. simpl.
  by rewrite Hr1, Hr, Ha.
Qed.

(** ** The normalizer on reset outcomes and malformed outcomes *)

Lemma dict_get_set (d : pydict) (k k' : key) (v : pyval) :
  dict_get (dict_set d k v) k' = if decide (k' = k) then Some v else dict_get d k'.
Proof.
  induction d as [|[k0 v0] d IH]; simpl.
  - repeat case_decide; congruence.
  - destruct (decide (k0 = k)) as [->|Hne]; simpl.
    + repeat case_decide; congruence.
    + rewrite IH. repeat case_decide; congruence.
Qed.

Lemma dict_get_fill (v : pyval) (ks : list key) (d0 : pydict) (k : key) :
  dict_get (foldl (λ d agent_id, dict_set d agent_id v) d0 ks) k =
    if decide (k ∈ ks) then Some v else dict_get d0 k.
Proof.
  revert d0. induction ks as [|k0 ks IH]; intros d0; simpl.
  - by destruct (decide (k ∈ [])) as [?%elem_of_nil|].
  - rewrite IH, dict_get_set.
    destruct (decide (k ∈ ks)) as [Hin|Hnin].
    + by rewrite decide_True by (by right).
    + destruct (decide (k = k0)) as [->|Hne].
      * by rewrite decide_True by left.
      * rewrite decide_False; [done|]. rewrite elem_of_cons. tauto.
Qed.

Lemma dict_get_zeros (v : pyval) (ks : list key) (k : key) :
  dict_get (dict_lit ((λ agent_id, (agent_id, v)) <$> ks)) k =
    if decide (k ∈ ks) then Some v else None.
Proof.
  unfold dict_lit. rewrite foldl_fmap. simpl. by rewrite dict_get_fill.
Qed.

(** X7. A [reset()] outcome [(obs, info)] of a worker that is an actor
    itself is stored with a reward of 0 for exactly the agent keys of the
    observation and with both flag dicts equal to [{"__all__": False}]; in
    single-agent mode observation and info are first wrapped under the
    agent key. *)
Theorem poll_reset_record b h s w env_id ob info d :
  pending s !! h = Some w →
  list_index_of (actors s) w = Ok env_id →
  make_env_creates_actors s = true →
  ray_get h = Ok (VTuple [ob; info]) →
  (if multiagent s then ob else singleton_dict ob) = VDict d →
  ∃ rew,
    poll_step b h s =
      (set_pending (delete h (pending s)) s,
       Ok (store env_id
             (VDict d, VDict rew, VDict [(ALL, VBool false)],
              VDict [(ALL, VBool false)],
              if multiagent s then info else singleton_dict info)
             (add_env_id env_id b))) ∧
    ∀ k, dict_get rew k = if decide (k ∈ dict_keys d) then Some (VInt 0) else None.
Proof.
  intros Hw Hi Hc Hg Hd.
  rewrite (poll_step_value b h s w env_id _ Hw Hi Hg), Hc.
  exists (dict_lit ((λ agent_id, (agent_id, VInt 0)) <$> dict_keys d)).
  split; [|intros k; apply dict_get_zeros].
  unfold normalize, fill_reset. destruct (multiagent s); simpl in *.
  - by subst ob.
  - unfold singleton_dict in Hd. by injection Hd as <-.
Qed.

(** X8. In multi-agent mode a five-tuple outcome of an actor worker whose
    reward is [None] is taken for a [reset()] outcome: the reward becomes 0
    per agent key and the two flag dicts the worker returned are replaced
    by [{"__all__": False}]. *)
Theorem poll_none_reward_step_is_a_reset b h s w env_id d t u info :
  pending s !! h = Some w →
  list_index_of (actors s) w = Ok env_id →
  make_env_creates_actors s = true → multiagent s = true →
  ray_get h = Ok (VTuple [VDict d; VNone; t; u; info]) →
  ∃ rew,
    poll_step b h s =
      (set_pending (delete h (pending s)) s,
       Ok (store env_id
             (VDict d, VDict rew, VDict [(ALL, VBool false)],
              VDict [(ALL, VBool false)], info)
             (add_env_id env_id b))) ∧
    ∀ k, dict_get rew k = if decide (k ∈ dict_keys d) then Some (VInt 0) else None.
Proof.
  intros Hw Hi Hc Hm Hg.
  rewrite (poll_step_value b h s w env_id _ Hw Hi Hg), Hc, Hm.
  exists (dict_lit ((λ agent_id, (agent_id, VInt 0)) <$> dict_keys d)).
  split; [done | intros k; apply dict_get_zeros].
Qed.

Lemma decode_actor_non_tuple multi ret :
  (∀ xs, ret ≠ VTuple xs) →
  ∃ e, decode_actor multi ret = Raise e ∧ exc_class e = AssertionError.
Proof.
  intros Hnt. destruct multi, ret; simpl; try (by eexists); by destruct (Hnt xs).
Qed.

(** X9. For workers that are actors themselves, an outcome that is not a
    tuple (a bare observation, or a list, whatever its length) makes [poll]
    raise an [AssertionError] at once, whatever the restart setting: the
    handle has left the pending table and nothing else has happened. *)
Theorem poll_rejects_non_tuple rounds pre h post s s1 b w i ret :
  wait_ready rounds = Some (pre ++ h :: post) →
  poll_loop pre empty_batch s = (s1, Ok b) →
  make_env_creates_actors s = true →
  pending s1 !! h = Some w →
  list_index_of (actors s1) w = Ok i →
  ray_get h = Ok ret → (∀ xs, ret ≠ VTuple xs) →
  ∃ e, poll rounds s = Some (set_pending (delete h (pending s1)) s1, Raise e) ∧
       exc_class e = AssertionError.
Proof.
  intros Hw Hpre Hc Hh Hi Hg Hnt.
  pose proof (poll_loop_frame pre empty_batch s) as [_ (_&Hm&_&_&Hc1)].
  rewrite Hpre in Hm, Hc1; simpl in Hm, Hc1.
  pose proof (poll_step_value b h s1 w i _ Hh Hi Hg) as Hstep.
  unfold normalize in Hstep. rewrite Hc1, Hc in Hstep.
  destruct (decode_actor_non_tuple (multiagent s1) ret Hnt) as (e & He & Hcls).
  rewrite He in Hstep. simpl in Hstep.
  exists e. split; [by eapply poll_raises_at | done].
Qed.

(** ** [try_reset] and [send_actions] *)

Lemma list_index_of_NoDup (l : list EnvObj) j w :
  NoDup l → l !! j = Some w → list_index_of l w = Ok j.
Proof.
  intros Hnd Hj. unfold list_index_of.
  destruct (list_find _ l) as [[i y]|] eqn:Hf.
  - apply list_find_Some in Hf as (Hi & -> & _).
    by rewrite (NoDup_lookup _ _ _ _ Hnd Hi Hj).
  - apply list_find_None in Hf. rewrite list.Forall_forall in Hf.
    destruct (Hf w); [|done]. by eapply list_elem_of_lookup_2.
Qed.

Lemma list_getitem_index {A} (l : list A) i j x :
  list_index l i = Ok j → l !! j = Some x → list_getitem l i = Ok x.
Proof. intros Hi Hj. unfold list_getitem. rewrite Hi. simpl. by rewrite Hj. Qed.

(** X10. [try_reset] on a slot that holds an actor submits one [reset] task
    with the given seed and options, records its fresh handle for that
    worker and returns the sentinel pair; in a pool without duplicates the
    new handle stands for the slot that was addressed. *)
Theorem try_reset_submits_reset env_id seed options s j a :
  list_index (actors s) env_id = Ok j →
  actors s !! j = Some (ActorHandle a) →
  NoDup (actors s) →
  ∃ s',
    try_reset env_id seed options s =
      (s', Ok (ASYNC_RESET_RETURN, ASYNC_RESET_RETURN)) ∧
    pending s' = <[next_ref s := ActorHandle a]> (pending s) ∧
    actors s' = actors s ∧
    target s' (next_ref s) = Some j ∧
    trace s' = EvRemote (ActorHandle a) (MReset seed options) (next_ref s) :: trace s.
Proof.
  intros Hi Hj Hnd. unfold try_reset. munfold.
  rewrite (list_getitem_index _ _ _ _ Hi Hj). simpl.
  eexists. split; [done|]. simpl. split_and!; try done.
  unfold target. simpl. rewrite lookup_insert_eq.
  by rewrite (list_index_of_NoDup _ _ _ Hnd Hj).
Qed.

(** X11. The env_id of [try_reset] is a Python list index: a negative one
    counts from the end of the pool, one outside [-len, len) raises
    [IndexError] and [None] raises [TypeError]; in the two error cases
    nothing is submitted and [self] is unchanged. *)
Theorem try_reset_env_id_bounds z seed options s :
  let n := Z.of_nat (length (actors s)) in
  ((- n ≤ z < 0)%Z →
   try_reset (Some z) seed options s = try_reset (Some (z + n)%Z) seed options s) ∧
  ((z < - n ∨ n ≤ z)%Z →
   try_reset (Some z) seed options s = (s, Raise exn_index_range)) ∧
  try_reset None seed options s = (s, Raise exn_bad_index).
Proof.
  intros n. split_and!.
  - intros Hz. unfold try_reset. munfold.
    assert (list_getitem (actors s) (Some z) = list_getitem (actors s) (Some (z + n)%Z))
      as ->; [|done].
    unfold list_getitem, list_index. fold n.
    rewrite (decide_True (P := (z < 0)%Z)) by lia.
    rewrite (decide_False (P := (z + n < 0)%Z)) by lia. done.
  - intros Hz. unfold try_reset. munfold.
    unfold list_getitem, list_index. fold n.
    destruct (decide (z < 0)%Z); rewrite decide_False by lia; done.
  - done.
Qed.

Lemma send_actions_app d1 d2 s :
  send_actions (d1 ++ d2) s = (send_actions d1;; send_actions d2) s.
Proof.
  revert s. induction d1 as [|[k a] d1 IH]; intros s; simpl; [done|].
  unfold bind. destruct (send_one k a s) as [s1 [[]|e]]; [|done].
  rewrite IH. done.
Qed.

Lemma send_one_raise k actions s :
  (∃ e, list_getitem (actors s) (int_of_key k) = Raise e) ∨
  (∃ e, step_payload s actions = Raise e) →
  ∃ e, send_one k actions s = (s, Raise e).
Proof.
  intros Hfail. unfold send_one, step_payload in *. munfold.
  destruct (list_getitem (actors s) (int_of_key k)) as [w|e] eqn:Hw; simpl;
    [|by eexists].
  destruct Hfail as [[e [=]]|[e He]].
  destruct (negb (multiagent s) && make_env_creates_actors s); [|done].
  rewrite He. simpl. by eexists.
Qed.

(** X12. [send_actions] works through the entries in order and stops at
    the first one it cannot submit, because its env_id is no valid index or
    because a single-agent action dict lacks the agent key: the tasks of
    the entries before it stay submitted, the entry itself and those after
    it are not. *)
Theorem send_actions_stops_at_first_error d1 k actions d2 s s1 :
  send_actions d1 s = (s1, Ok tt) →
  (∃ e, list_getitem (actors s1) (int_of_key k) = Raise e) ∨
  (∃ e, step_payload s1 actions = Raise e) →
  ∃ e, send_actions (d1 ++ (k, actions) :: d2) s = (s1, Raise e).
Proof.
  intros Hd1 Hfail. destruct (send_one_raise k actions s1 Hfail) as [e He].
  exists e. rewrite send_actions_app. unfold bind at 1. rewrite Hd1. simpl.
  unfold bind. by rewrite He.
Qed.

Lemma send_one_ok k actions s a p :
  list_getitem (actors s) (int_of_key k) = Ok (ActorHandle a) →
  step_payload s actions = Ok p →
  send_one k actions s =
    (set_pending (<[next_ref s := ActorHandle a]> (pending s))
       (emit 1 0 (EvRemote (ActorHandle a) (MStep p) (next_ref s)) s), Ok tt).
Proof.
  intros Hw Hp. unfold send_one, step_payload in *. munfold. rewrite Hw. simpl.
  destruct (negb (multiagent s) && make_env_creates_actors s); simpl.
  - rewrite Hp. done.
  - by injection Hp as <-.
Qed.

(** X13. When every entry of the action dict addresses a slot that holds an
    actor (and, for single-agent actors, carries the agent key),
    [send_actions] returns having submitted one [step] task per entry, in
    order: entry [n] gets the [n]-th fresh handle, recorded for the
    addressed worker, and its task carries the bare agent action for
    single-agent actors and the action dict otherwise.  Handles that were
    pending before are untouched and the pool is unchanged. *)
Theorem send_actions_submits_steps d s :
  Forall (λ kv, ∃ a p, list_getitem (actors s) (int_of_key kv.1) = Ok (ActorHandle a) ∧
                       step_payload s kv.2 = Ok p) d →
  ∃ s',
    send_actions d s = (s', Ok tt) ∧
    actors s' = actors s ∧ next_ref s' = next_ref s + length d ∧
    (∀ n k actions, d !! n = Some (k, actions) →
       ∃ w p, list_getitem (actors s) (int_of_key k) = Ok w ∧
              step_payload s actions = Ok p ∧
              pending s' !! (next_ref s + n) = Some w ∧
              EvRemote w (MStep p) (next_ref s + n) ∈ trace s') ∧
    (∀ h, h < next_ref s → pending s' !! h = pending s !! h) ∧
    (∀ ev, ev ∈ trace s → ev ∈ trace s').
Proof.
  revert s. induction d as [|[k actions] d IH]; intros s Hall.
  { exists s. simpl. split_and!; try done; try lia. }
  inversion Hall as [|? ? (a & p & Hw & Hp) Hall']; subst. simpl in Hw, Hp.
  simpl. unfold bind. rewrite (send_one_ok _ _ _ _ _ Hw Hp).
  set (s1 := set_pending _ _).
  destruct (IH s1) as (s' & -> & Ha & Hn & Hent & Hold & Htr).
  { eapply list.Forall_impl; [exact Hall'|]. intros [k' a'] (a0 & p0 & ? & ?).
    by exists a0, p0. }
  exists s'. simpl in *. split_and!; try done.
  - lia.
  - intros [|n] k' actions' Hn'; simpl in Hn'.
    + injection Hn' as <- <-. exists (ActorHandle a), p. split_and!; try done.
      * rewrite Nat.add_0_r, Hold by lia. apply lookup_insert_eq.
      * rewrite Nat.add_0_r. apply Htr. left.
    + destruct (Hent n k' actions' Hn') as (w' & p' & ? & ? & Hl & Hev).
      exists w', p'. replace (next_ref s + S n) with (S (next_ref s) + n) by lia.
      done.
  - intros h Hh. rewrite Hold by lia. by rewrite lookup_insert_ne by lia.
  - intros ev Hev. apply Htr. by right.
Qed.

(** ** Handles are fresh *)

Lemma remote_call_next_ref w m s : next_ref s ≤ next_ref (remote_call w m s).1.
Proof. destruct w; simpl; lia. Qed.

Lemma make_sub_env_next_ref idx s : next_ref (_make_sub_env idx s).1 = next_ref s.
Proof.
  unfold _make_sub_env, log.
  destruct (make_env_creates_actors s); simpl.
  - destruct (make_env _ idx); simpl; [|done].
    destruct (has_worker s); simpl; [|done].
    by destruct (list_getitem _ _).
  - by destruct (has_worker s).
Qed.

Lemma try_restart_next_ref env_id s : next_ref s ≤ next_ref (try_restart env_id s).1.
Proof.
  unfold try_restart.
  set (s1 := match list_getitem (actors s) env_id with
             | Ok w => _ | Raise _ => _ end).
  assert (next_ref s ≤ next_ref s1) as H1.
  { subst s1. destruct (list_getitem (actors s) env_id) as [w|]; [|done].
    pose proof (remote_call_next_ref w MClose s).
    by destruct (remote_call w MClose s) as [s' [?|?]]. }
  clearbody s1. munfold.
  destruct (list_getitem (actors s1) env_id) as [w|]; [|done].
  pose proof (remote_call_next_ref w MTerminate s1) as H2.
  destruct (remote_call w MTerminate s1) as [s2 [r|e]]; simpl in *; [|lia].
  destruct env_id as [idx|]; simpl; [|lia].
  pose proof (make_sub_env_next_ref idx s2) as H3.
  destruct (_make_sub_env idx s2) as [s3 [sub|e]]; simpl in *; [|lia].
  destruct (list_index (actors s3) (Some idx)); simpl; lia.
Qed.

Lemma poll_step_next_ref b h s : next_ref s ≤ next_ref (poll_step b h s).1.
Proof.
  unfold poll_step.
  destruct (pending s !! h) as [actor|]; [|done]. simpl.
  destruct (list_index_of _ actor) as [env_id|]; [|done].
  destruct (ray_get h) as [r|e]; simpl; [by destruct (normalize _ _ r)|].
  destruct (restart_failed_sub_environments s); [|done].
  destruct (exc_args e) as [|msg args]; [done|].
  match goal with |- context [try_restart ?i ?s0] =>
    pose proof (try_restart_next_ref i s0) as Hn;
    destruct (try_restart i s0) as [s' [[]|e']] end; simpl in *; [|done].
  by destruct (normalize _ _ _).
Qed.

Lemma poll_loop_next_ref ready b s : next_ref s ≤ next_ref (poll_loop ready b s).1.
Proof.
  revert b s. induction ready as [|h ready IH]; intros b s; simpl; [done|].
  unfold bind. pose proof (poll_step_next_ref b h s) as Hn.
  destruct (poll_step b h s) as [s1 [b1|e]]; simpl in *; [|done].
  specialize (IH b1 s1). lia.
Qed.

Lemma fresh_handles_weaken s s' :
  fresh_handles s → pending s' ⊆ pending s → next_ref s ≤ next_ref s' →
  fresh_handles s'.
Proof.
  intros Hf Hsub Hle h w Hh. eapply lookup_weaken in Hh; [|done].
  apply Hf in Hh. lia.
Qed.

Lemma fresh_handles_submit s w ev :
  fresh_handles s →
  fresh_handles (set_pending (<[next_ref s := w]> (pending s)) (emit 1 0 ev s)).
Proof.
  intros Hf h w'. simpl. destruct (decide (h = next_ref s)) as [->|Hne].
  - intros _. lia.
  - rewrite lookup_insert_ne by done. intros Hh%Hf. lia.
Qed.

(** What one submission does to [self]: nothing, or one fresh handle. *)
Lemma send_one_cases k actions s :
  (send_one k actions s).1 = s ∨
  ∃ w p, (send_one k actions s).1 =
           set_pending (<[next_ref s := w]> (pending s))
             (emit 1 0 (EvRemote w (MStep p) (next_ref s)) s).
Proof.
  unfold send_one. munfold.
  destruct (list_getitem (actors s) (int_of_key k)) as [w|]; simpl; [|by left].
  destruct (negb (multiagent s) && make_env_creates_actors s); simpl.
  - destruct (py_getitem actions _) as [a|]; simpl; [|by left].
    destruct w; simpl; [right; by eexists _, _ | by left].
  - destruct w; simpl; [right; by eexists _, _ | by left].
Qed.

Lemma try_reset_cases env_id seed options s :
  (try_reset env_id seed options s).1 = s ∨
  ∃ w, (try_reset env_id seed options s).1 =
         set_pending (<[next_ref s := w]> (pending s))
           (emit 1 0 (EvRemote w (MReset seed options) (next_ref s)) s).
Proof.
  unfold try_reset. munfold.
  destruct (list_getitem (actors s) env_id) as [w|]; simpl; [|by left].
  destruct w; simpl; [right; by eexists | by left].
Qed.

Lemma send_actions_fresh d s :
  fresh_handles s →
  fresh_handles (send_actions d s).1 ∧ pending s ⊆ pending (send_actions d s).1.
Proof.
  revert s. induction d as [|[k actions] d IH]; intros s Hf; simpl; [done|].
  unfold bind.
  assert (fresh_handles (send_one k actions s).1 ∧
          pending s ⊆ pending (send_one k actions s).1) as [Hf1 Hsub1].
  { destruct (send_one_cases k actions s) as [->|(w & p & ->)]; [done|].
    split; [by apply fresh_handles_submit|]. simpl.
    apply insert_subseteq. destruct (pending s !! next_ref s) eqn:Hl; [|done].
    apply Hf in Hl. lia. }
  destruct (send_one k actions s) as [s1 [[]|e]]; simpl in *; [|done].
  destruct (IH s1 Hf1) as [Hf2 Hsub2]. split; [done|]. by etrans.
Qed.

Lemma size_map_seq (start : nat) (l : list EnvObj) :
  size (map_seq start l : gmap nat EnvObj) = length l.
Proof.
  revert start. induction l as [|x l IH]; intros start; simpl.
  - apply map_size_empty.
  - rewrite map_size_insert_None by apply map_seq_cons_disjoint. by rewrite IH.
Qed.

(** The dict comprehension of [__init__]: worker [k] of the list gets the
    [k]-th fresh handle. *)
Lemma reset_all_spec l p s s' p' :
  reset_all l p s = (s', Ok p') →
  p' = map_seq (next_ref s) l ∪ p ∧ next_ref s' = next_ref s + length l ∧
  Forall (λ w, is_actor w = true) l.
Proof.
  revert p s s' p'. induction l as [|a l IH]; intros p s s' p'; simpl.
  { unfold ok. intros [= <- <-]. rewrite (left_id_L ∅ (∪)). split_and!; [done|lia|done]. }
  unfold bind. destruct a as [a|]; [|done]. simpl.
  intros Hrest. destruct (IH _ _ _ _ Hrest) as (Hp & Hn & Hall). simpl in Hp, Hn.
  split_and!; [|lia|by constructor].
  rewrite Hp, <- insert_union_l. symmetry.
  apply insert_union_r, map_seq_cons_disjoint.
Qed.

Lemma init_final existing s0 s :
  __init__ existing s0 = (s, Ok tt) →
  ∃ s1 s2, init_actors (default [] existing) s0 = (s1, Ok tt) ∧
           reset_all (actors s1) ∅ s1 = (s2, Ok (pending s)) ∧
           s = set_pending (pending s) s2.
Proof.
  unfold __init__. unfold bind at 1.
  destruct (init_actors _ s0) as [s1 [[]|e]]; [|done].
  munfold. destruct (reset_all (actors s1) ∅ s1) as [s2 [p|e]] eqn:Hr; [|done].
  intros [= <-]. simpl. by exists s1, s2.
Qed.

Lemma init_fresh existing s0 s :
  __init__ existing s0 = (s, Ok tt) → fresh_handles s.
Proof.
  intros Hinit. destruct (init_final _ _ _ Hinit) as (s1 & s2 & _ & Hr & Hs).
  destruct (reset_all_spec _ _ _ _ _ Hr) as (Hp & Hn & _).
  intros h w Hh. rewrite Hs. simpl. rewrite Hp, (right_id_L ∅ (∪)) in Hh.
  apply lookup_map_seq_Some in Hh as [_ Hh%lookup_lt_Some]. lia.
Qed.

Lemma run_op_fresh o s : fresh_handles s → fresh_handles (run_op o s).
Proof.
  intros Hf. destruct o as [rounds|d|env_id seed options|env_id]; simpl.
  - unfold poll. destruct (wait_ready rounds) as [ready|]; [|done]. munfold.
    pose proof (poll_loop_frame ready empty_batch s) as [Hsub _].
    pose proof (poll_loop_next_ref ready empty_batch s) as Hle.
    destruct (poll_loop ready empty_batch s) as [s1 [b|e]]; simpl in *;
      by eapply fresh_handles_weaken.
  - by apply send_actions_fresh.
  - destruct (try_reset_cases env_id seed options s) as [->|(w & ->)]; [done|].
    by apply fresh_handles_submit.
  - destruct (try_restart_frame env_id s) as [Hp _].
    eapply fresh_handles_weaken; [done | by rewrite Hp | apply try_restart_next_ref].
Qed.

(** X14. In every state the dispatcher reaches, each handle of the pending
    table is an object ref Ray has already handed out: the next ref a
    submission obtains is never one that is still pending. *)
Theorem pending_handles_are_fresh s h w :
  reachable s → pending s !! h = Some w → h < next_ref s.
Proof.
  intros Hreach. revert h w. change (fresh_handles s).
  induction Hreach as [? ? ? ? ? ? ? ? existing s Hinit _ | s o _ IH _].
  - by eapply init_fresh.
  - by apply run_op_fresh.
Qed.

(** X15. [send_actions] and [try_reset] only add to the pending table: when
    the pending handles are refs Ray has already handed out, no submission
    drops or overwrites one of them, whether the call returns or raises. *)
Theorem submissions_keep_pending_handles d env_id seed options s :
  fresh_handles s →
  pending s ⊆ pending (send_actions d s).1 ∧
  pending s ⊆ pending (try_reset env_id seed options s).1.
Proof.
  intros Hf. split; [by apply send_actions_fresh|].
  destruct (try_reset_cases env_id seed options s) as [->|(w & ->)]; [done|].
  simpl. apply insert_subseteq.
  destruct (pending s !! next_ref s) eqn:Hl; [|done]. apply Hf in Hl. lia.
Qed.

(** X17. A construction that returns has sent exactly one [reset] task to
    every worker of the pool: the pending table maps consecutive object
    refs to the workers in slot order, it has as many entries as the pool
    has slots, and every slot holds an actor handle. *)
Theorem init_submits_one_reset_per_worker existing s0 s :
  __init__ existing s0 = (s, Ok tt) →
  ∃ r0,
    pending s = map_seq r0 (actors s) ∧
    next_ref s = r0 + length (actors s) ∧
    size (pending s) = length (actors s) ∧
    Forall (λ w, is_actor w = true) (actors s) ∧
    (∀ k w, actors s !! k = Some w → pending s !! (r0 + k) = Some w).
Proof.
  intros Hinit. destruct (init_final _ _ _ Hinit) as (s1 & s2 & _ & Hr & Hs).
  destruct (reset_all_spec _ _ _ _ _ Hr) as (Hp & Hn & Hall).
  pose proof (reset_all_frame (actors s1) ∅ s1) as Ha. rewrite Hr in Ha.
  simpl in Ha. rewrite (right_id_L ∅ (∪)) in Hp.
  assert (actors s = actors s1) as Has by (rewrite Hs; simpl; done).
  assert (next_ref s = next_ref s2) as Hns by (by rewrite Hs).
  exists (next_ref s1). rewrite Has, Hns, Hp. split_and!; try done.
  - apply size_map_seq.
  - intros k w Hk. by apply lookup_map_seq_Some_inv.
Qed.

(** ** [try_restart] and the shape of the pool *)


(** What [try_restart] does to the pool: nothing, or one assignment to the
    addressed slot. *)
Lemma try_restart_actors env_id s :
  actors (try_restart env_id s).1 = actors s ∨
  ∃ j new, list_index (actors s) env_id = Ok j ∧
           actors (try_restart env_id s).1 = <[j := new]> (actors s).
Proof.
  unfold try_restart.
  set (s1 := match list_getitem (actors s) env_id with
             | Ok w => _ | Raise _ => _ end).
  assert (actors s1 = actors s) as Ha1.
  { subst s1. destruct (list_getitem (actors s) env_id) as [w|]; [|done].
    pose proof (remote_call_frame w MClose s) as (_ & ? & _).
    by destruct (remote_call w MClose s) as [s' [?|?]]. }
  clearbody s1. munfold.
  destruct (list_getitem (actors s1) env_id) as [w|]; [|by left].
  pose proof (remote_call_frame w MTerminate s1) as (_ & Ha2 & _).
  destruct (remote_call w MTerminate s1) as [s2 [r|e]]; simpl in *;
    [|left; congruence].
  destruct env_id as [idx|]; simpl; [|left; congruence].
  pose proof (make_sub_env_frame idx s2) as (_ & Ha3 & _).
  destruct (_make_sub_env idx s2) as [s3 [sub|e]]; simpl in *;
    [|left; congruence].
  assert (actors s3 = actors s) as Ha by congruence. rewrite Ha.
  destruct (list_index (actors s) (Some idx)) as [j|]; simpl;
    [right; by exists j, sub | by left].
Qed.

Lemma try_restart_length env_id s :
  length (actors (try_restart env_id s).1) = length (actors s).
Proof.
  destruct (try_restart_actors env_id s) as [->|(j & new & _ & ->)]; [done|].
  apply length_insert.
Qed.

Lemma poll_step_length b h s :
  length (actors (poll_step b h s).1) = length (actors s).
Proof.
  unfold poll_step.
  destruct (pending s !! h) as [actor|]; [|done]. simpl.
  destruct (list_index_of _ actor) as [env_id|]; [|done].
  destruct (ray_get h) as [r|e]; simpl; [by destruct (normalize _ _ r)|].
  destruct (restart_failed_sub_environments s); [|done].
  destruct (exc_args e) as [|msg args]; [done|].
  match goal with |- context [try_restart ?i ?s0] =>
    pose proof (try_restart_length i s0) as Hn;
    destruct (try_restart i s0) as [s' [[]|e']] end; simpl in *; [|done].
  by destruct (normalize _ _ _).
Qed.

Lemma poll_loop_length ready b s :
  length (actors (poll_loop ready b s).1) = length (actors s).
Proof.
  revert b s. induction ready as [|h ready IH]; intros b s; simpl; [done|].
  unfold bind. pose proof (poll_step_length b h s) as Hn.
  destruct (poll_step b h s) as [s1 [b1|e]]; simpl in *; [|done].
  by rewrite IH.
Qed.

Lemma send_actions_frame d s :
  actors (send_actions d s).1 = actors s ∧ same_config s (send_actions d s).1.
Proof.
  revert s. induction d as [|[k actions] d IH]; intros s; simpl; [done|].
  unfold bind.
  assert (actors (send_one k actions s).1 = actors s ∧
          same_config s (send_one k actions s).1) as [Ha Hc].
  { by destruct (send_one_cases k actions s) as [->|(w & p & ->)]. }
  destruct (send_one k actions s) as [s1 [[]|e]]; simpl in *; [|done].
  destruct (IH s1) as [Ha' Hc']. split; [congruence|].
  by eapply same_config_trans.
Qed.

(** X16. No call changes the number of slots of the pool or the settings
    fixed at construction (multi-agent flag, restart flag, whether workers
    are actors themselves, the owning worker, [num_envs]). *)
Theorem calls_keep_pool_size_and_mode o s :
  length (actors (run_op o s)) = length (actors s) ∧ same_config s (run_op o s).
Proof.
  destruct o as [rounds|d|env_id seed options|env_id]; simpl.
  - unfold poll. destruct (wait_ready rounds) as [ready|]; [|done]. munfold.
    pose proof (poll_loop_frame ready empty_batch s) as [_ Hc].
    pose proof (poll_loop_length ready empty_batch s) as Hl.
    by destruct (poll_loop ready empty_batch s) as [s1 [b|e]].
  - destruct (send_actions_frame d s) as [-> Hc]. done.
  - by destruct (try_reset_cases env_id seed options s) as [->|(w & ->)].
  - split; [apply try_restart_length | apply try_restart_frame].
Qed.

(** X21. [try_restart] leaves every slot other than the addressed one as it
    is, whether it returns or raises. *)
Theorem try_restart_touches_one_slot env_id s k :
  (∀ j, list_index (actors s) env_id = Ok j → k ≠ j) →
  actors (try_restart env_id s).1 !! k = actors s !! k.
Proof.
  intros Hk. destruct (try_restart_actors env_id s) as [->|(j & new & Hj & ->)];
    [done|].
  apply list_lookup_insert_ne. intros <-. by apply (Hk j).
Qed.




(** X20. When the factory raises during a restart, [try_restart] raises
    that exception after the old worker has been sent [close] and
    [__ray_terminate__]: the slot still holds the terminated worker. *)
Theorem try_restart_factory_fault idx s a e :
  make_env_creates_actors s = true →
  list_getitem (actors s) (Some idx) = Ok (ActorHandle a) →
  make_env (2 + length (trace s)) idx = Raise e →
  ∃ s', try_restart (Some idx) s = (s', Raise e) ∧
        actors s' = actors s ∧ pending s' = pending s ∧
        trace s' = EvMakeEnv idx (Raise e)
                     :: EvRemote (ActorHandle a) MTerminate (S (next_ref s))
                     :: EvRemote (ActorHandle a) MClose (next_ref s) :: trace s.
Proof.
  intros Hc Hold He. unfold try_restart. rewrite Hold. munfold. rewrite Hold.
  simpl. unfold _make_sub_env. simpl. rewrite Hc, He. simpl.
  by eexists.
Qed.

(** ** [stop] and [get_sub_environments] *)

Lemma terminate_events_cons r0 w ws :
  terminate_events r0 (w :: ws) =
    EvRemote w MTerminate r0 :: terminate_events (S r0) ws.
Proof.
  unfold terminate_events. rewrite imap_cons, Nat.add_0_r. f_equal.
  apply imap_ext. intros k x _. simpl. f_equal. lia.
Qed.

Lemma terminate_all_spec l s :
  Forall (λ w, is_actor w = true) l →
  ∃ s', terminate_all l s = (s', Ok tt) ∧
        trace s' = rev (terminate_events (next_ref s) l) ++ trace s ∧
        actors s' = actors s ∧ pending s' = pending s.
Proof.
  intros Hall. revert s. induction Hall as [|w l Hw Hall IH]; intros s.
  { by exists s. }
  rewrite terminate_events_cons. destruct w as [a|]; [|done].
  cbn [terminate_all]. unfold bind, remote_call. cbv beta iota.
  match goal with |- context [terminate_all l ?s1] =>
    destruct (IH s1) as (s' & -> & Ht & Ha & Hp) end.
  exists s'. split; [done|]. rewrite Ht, Ha, Hp.
  cbn [rev next_ref trace actors pending emit]. by rewrite <- app_assoc.
Qed.

(** X22. On a pool of actor handles [stop] returns after sending
    [__ray_terminate__] to every worker exactly once, in slot order; it
    empties neither the pool nor the pending table. *)
Theorem stop_terminates_every_worker s :
  Forall (λ w, is_actor w = true) (actors s) →
  ∃ s', stop s = (s', Ok tt) ∧
        trace s' = rev (terminate_events (next_ref s) (actors s)) ++ trace s ∧
        actors s' = actors s ∧ pending s' = pending s.
Proof. intros Hall. unfold stop. munfold. by apply terminate_all_spec. Qed.

Lemma list_to_map_imap_seq (n : nat) (l : list EnvObj) :
  list_to_map (imap (λ i w, (n + i, w)) l) =@{gmap nat EnvObj} map_seq n l.
Proof.
  revert n. induction l as [|x l IH]; intros n; [done|].
  rewrite imap_cons, map_seq_cons. simpl. rewrite Nat.add_0_r. f_equal.
  rewrite <- IH. f_equal. apply imap_ext. intros k y _. simpl. f_equal. lia.
Qed.

(** X23. The two views of [get_sub_environments] agree: the list is the
    pool itself and the dict maps every slot index to the worker in that
    slot and has no other key. *)
Theorem get_sub_environments_views s :
  get_sub_environments false s = inl (actors s) ∧
  ∃ m : gmap nat EnvObj,
    get_sub_environments true s = inr m ∧
    (∀ i, m !! i = actors s !! i) ∧ size m = length (actors s).
Proof.
  split; [done|]. unfold get_sub_environments.
  exists (map_seq 0 (actors s)). split_and!.
  - f_equal. apply (list_to_map_imap_seq 0).
  - intros i. apply lookup_map_seq_0.
  - apply size_map_seq.
Qed.

(** ** Construction of wrapper pools and edge cases of [__init__] *)




(** X25. Without existing environments an empty pool cannot be built:
    for [num_envs <= 0] the construction raises the [IndexError] of
    [self.actors[0]] when it asks worker 0 for the spaces. *)
Theorem init_empty_pool_raises num multi wait_ms worker restart refs0 actors0 trace0
    existing :
  default [] existing = [] → (num ≤ 0)%Z →
  ∃ s', __init__ existing
          (blank num multi wait_ms worker restart refs0 actors0 trace0)
        = (s', Raise exn_index_range) ∧
        actors s' = [] ∧ pending s' = ∅ ∧ trace s' = trace0.
Proof.
  intros Hex Hnum. unfold __init__, init_actors. rewrite Hex. simpl.
  munfold. replace (Z.to_nat num) with 0 by lia. simpl. by eexists.
Qed.


(** ** The wrapper actors *)

(** X27. The single-agent wrapper's [reset] reads only the first two
    elements of what the environment returned: any tuple with at least two
    elements yields observation and info under the agent key, a float
    reward of 0 and both flags [{"__all__": False}], and [poll] stores that
    result as it is. *)
Theorem single_agent_wrapper_reset o i rest multi :
  _RemoteSingleAgentEnv_reset (Ok (VTuple (o :: i :: rest))) =
    Ok (VTuple [VDict [(_DUMMY_AGENT_ID, o)]; VDict [(_DUMMY_AGENT_ID, float_zero)];
                VDict [(ALL, VBool false)]; VDict [(ALL, VBool false)];
                VDict [(_DUMMY_AGENT_ID, i)]]) ∧
  normalize false multi
    (VTuple [VDict [(_DUMMY_AGENT_ID, o)]; VDict [(_DUMMY_AGENT_ID, float_zero)];
             VDict [(ALL, VBool false)]; VDict [(ALL, VBool false)];
             VDict [(_DUMMY_AGENT_ID, i)]]) =
    Ok (VDict [(_DUMMY_AGENT_ID, o)], VDict [(_DUMMY_AGENT_ID, float_zero)],
        VDict [(ALL, VBool false)], VDict [(ALL, VBool false)],
        VDict [(_DUMMY_AGENT_ID, i)]).
Proof.
  split; [|done]. unfold _RemoteSingleAgentEnv_reset. simpl.
  unfold py_getitem, list_getitem, list_index. cbn [int_of_key length].
  rewrite !(decide_False (P := (_ < 0)%Z)) by lia.
  rewrite !decide_True by lia. done.
Qed.

(** X28. The multi-agent wrapper's [reset]: when the environment returned a
    pair whose observation is a dict, the result carries that observation
    and info, a float reward of 0 for exactly the agent keys of the
    observation and both flags [{"__all__": False}], and the agent keys
    have joined [agent_ids]; when [reset] raises, [agent_ids] is as it
    was. *)
Theorem multi_agent_wrapper_reset r self :
  (∀ v d info, r = Ok v → unpack2 v = Ok (VDict d, info) →
     ∃ rew,
       _RemoteMultiAgentEnv_reset r self =
         ({| agent_ids := agent_ids self ∪ list_to_set (dict_keys d) |},
          Ok (VTuple [VDict d; VDict rew; VDict [(ALL, VBool false)];
                      VDict [(ALL, VBool false)]; info])) ∧
       ∀ k, dict_get rew k =
              if decide (k ∈ dict_keys d) then Some float_zero else None) ∧
  (∀ e, (_RemoteMultiAgentEnv_reset r self).2 = Raise e →
        (_RemoteMultiAgentEnv_reset r self).1 = self).
Proof.
  split.
  - intros v d info -> Hu. unfold _RemoteMultiAgentEnv_reset. simpl.
    rewrite Hu. simpl.
    exists (foldl (λ rew agent_id, dict_set rew agent_id float_zero) [] (dict_keys d)).
    split; [|intros k; by rewrite dict_get_fill].
    f_equal. f_equal. apply set_eq. intros k.
    rewrite elem_of_foldl_add, elem_of_union, elem_of_list_to_set. done.
  - intros e. unfold _RemoteMultiAgentEnv_reset.
    by destruct (res_bind r _) as [[[ob info] ks]|].
Qed.

(** X29. The single-agent wrapper's [step] returns exactly when the
    environment's [step], called with the agent's action, returned
    something that iterates to five values; any other length, and any
    fault of the environment, makes the task fault. *)
Theorem single_agent_wrapper_step_needs_five env_step action a :
  py_getitem action _DUMMY_AGENT_ID = Ok a →
  (∃ ret, _RemoteSingleAgentEnv_step env_step action = Ok ret) ↔
  (∃ o r t tr i, (try! results := env_step a in py_iter results) = Ok [o; r; t; tr; i]).
Proof.
  intros Ha. unfold _RemoteSingleAgentEnv_step. rewrite Ha. simpl.
  destruct (env_step a) as [results|e]; simpl.
  2:{ split; [by intros [? ?] | by intros (?&?&?&?&?&?)]. }
  destruct (py_iter results) as [xs|e]; simpl.
  2:{ split; [by intros [? ?] | by intros (?&?&?&?&?&?)]. }
  destruct xs as [|o [|r [|t [|tr [|i [|x xs]]]]]]; simpl;
    try (split; [by intros [? ?] | by intros (?&?&?&?&?&?)]).
  unfold py_getitem. simpl. rewrite !decide_True by done. simpl.
  split; [intros _; by exists o, r, t, tr, i | intros _; by eexists].
Qed.

(** X30. With an owning worker set and a factory that produces actors,
    building a worker for a slot that does not exist yet fails: the
    callback is handed [self.actors[idx]], so a construction that has to
    extend [existing_envs] raises [IndexError] right after the first
    factory call, before any [reset] is sent. *)
Theorem init_with_worker_cannot_extend num multi wait_ms restart refs0 actors0 trace0
    existing w :
  first_is_actor existing = true →
  (Z.of_nat (length existing) < num)%Z →
  make_env (length trace0) (Z.of_nat (length existing)) = Ok w →
  ∃ s', __init__ (Some existing)
          (blank num multi wait_ms true restart refs0 actors0 trace0)
        = (s', Raise exn_index_range) ∧
        actors s' = existing ∧ pending s' = ∅ ∧
        trace s' = EvMakeEnv (Z.of_nat (length existing)) (Ok w) :: trace0.
Proof.
  intros Hfirst Hlen Hmk. unfold __init__, init_actors. simpl. rewrite Hfirst.
  munfold.
  destruct (Z.to_nat (num - Z.of_nat (length existing))) as [|fuel] eqn:Hfuel; [lia|].
  simpl. munfold. rewrite decide_True by lia.
  unfold _make_sub_env. simpl. rewrite Hmk. simpl.
  unfold list_getitem, list_index.
  rewrite (decide_False (P := (_ < 0)%Z)) by lia.
  rewrite decide_False by lia. simpl. by eexists.
Qed.

End Properties.

(** * Evaluations on sample pools *)

(** Workers 0 and 2 are ready after two empty wait rounds, worker 1 is not:
    the batch has the records of 0 and 2 only and handle 1 stays pending. *)
Example poll_returns_the_ready_subset :
  let r := poll (ext := faulty_ext) [[]; []; [0; 2]]
             (sample_pool true false false three_workers three_pending) in
  returned_record 0 r =
    Some (VDict [(KStr "agent0", VObj 0)], VDict [(KStr "agent0", VInt 0)],
          VDict [(ALL, VBool false)], VDict [(ALL, VBool false)],
          VDict [(KStr "agent0", VObj 1)]) ∧
  returned_record 1 r = None ∧
  returned_record 2 r =
    Some (VDict [(KStr "agent0", VObj 20)], VDict [(KStr "agent0", VInt 0)],
          VDict [(ALL, VBool false)], VDict [(ALL, VBool false)],
          VDict [(KStr "agent0", VObj 21)]) ∧
  (pending ∘ fst) <$> r = Some {[1 := ActorHandle 1]}.
Proof. split_and!; by vm_compute. Qed.

(** A wait loop that never sees a ready handle does not come back. *)
Example poll_blocks_without_ready_handles :
  poll (ext := faulty_ext) [[]; []; []]
    (sample_pool true false false three_workers three_pending) = None.
Proof. done. Qed.

(** [try_reset] only submits the task and returns the sentinel pair. *)
Example try_reset_returns_sentinel :
  let r := try_reset (ext := faulty_ext) (Some 1%Z) VNone VNone
             (sample_pool true false false three_workers []) in
  r.2 = Ok (VStr "async_reset_return", VStr "async_reset_return") ∧
  pending r.1 = {[100 := ActorHandle 1]}.
Proof. split; by vm_compute. Qed.

(** C1 (failing input). Single-agent workers that are actors themselves,
    restarts enabled, handles 0, 1 and 2 ready and the task of worker 1
    faults.  [poll] returns, worker 1 has been replaced and the record of
    worker 2 is the normalized reset outcome, but the substitute tuple went
    through the single-agent wrapping like a step outcome: env_id 1 does
    not get [obs = fault], [reward = {}], [terminated = {"__all__": True}],
    [truncated = {"__all__": False}], [info = {}] but each of these wrapped
    under the agent key. *)
Theorem fault_record_wrapped_for_single_agent_actors :
  returned_record 1
    (poll (ext := faulty_ext) [[0; 1; 2]]
       (sample_pool true false true three_workers three_pending)) =
    Some (VDict [(KStr "agent0", VExc boom)],
          VDict [(KStr "agent0", VDict [])],
          VDict [(KStr "agent0", VDict [(ALL, VBool true)]);
                 (ALL, VDict [(ALL, VBool true)])],
          VDict [(KStr "agent0", VDict [(ALL, VBool false)]);
                 (ALL, VDict [(ALL, VBool false)])],
          VDict [(KStr "agent0", VDict [])]) ∧
  returned_record 1
    (poll (ext := faulty_ext) [[0; 1; 2]]
       (sample_pool true false true three_workers three_pending)) ≠
    Some (VExc boom, VDict [], VDict [(ALL, VBool true)],
          VDict [(ALL, VBool false)], VDict []) ∧
  returned_record 2
    (poll (ext := faulty_ext) [[0; 1; 2]]
       (sample_pool true false true three_workers three_pending)) =
    Some (VDict [(KStr "agent0", VObj 20)], VDict [(KStr "agent0", VInt 0)],
          VDict [(ALL, VBool false)], VDict [(ALL, VBool false)],
          VDict [(KStr "agent0", VObj 21)]) ∧
  (actors ∘ fst) <$>
    poll (ext := faulty_ext) [[0; 1; 2]]
      (sample_pool true false true three_workers three_pending) =
    Some [ActorHandle 0; ActorHandle 53; ActorHandle 2].
Proof. split_and!; [by vm_compute | vm_compute; discriminate | by vm_compute..]. Qed.

(** C2 (witness): three workers, restarts disabled, handles 0, 1 and 2 ready
    and the task of worker 1 faults. *)
Lemma poll_fault_without_restart_witness :
  ∃ s', poll (ext := faulty_ext) [[0; 1; 2]]
          (sample_pool true false false three_workers three_pending)
        = Some (s', Raise boom) ∧
        (∀ h', h' ∈ [0] ++ [1] → pending s' !! h' = None) ∧
        (∀ h', h' ∉ [0] ++ [1] →
           pending s' !! h' =
           pending (sample_pool true false false three_workers three_pending) !! h') ∧
        actors s' = actors (sample_pool true false false three_workers three_pending).
Proof.
  eapply (poll_fault_without_restart (ext := faulty_ext)
            [[0; 1; 2]] [0] 1 [2] _ _ _ (ActorHandle 1) 1 boom).
  - reflexivity.
  - reflexivity.
  - vm_compute. reflexivity.
  - reflexivity.
  - rewrite list_elem_of_singleton. lia.
  - reflexivity.
  - reflexivity.
Defined.

(** C3 (witness): the same three workers with restarts enabled; the call
    returns and all five dicts have the keys 0, 1 and 2. *)
Lemma poll_key_sets_witness :
  ∃ s' o r te tr inf extras,
    poll (ext := faulty_ext) [[0; 1; 2]]
      (sample_pool true false true three_workers three_pending)
    = Some (s', Ok (o, r, te, tr, inf, extras)) ∧
    dom o = {[0; 1; 2]} ∧
    ∃ ready, wait_ready [[0; 1; 2]] = Some ready ∧
      dom o = resolved_env_ids (ext := faulty_ext) ready
                (sample_pool true false true three_workers three_pending) ∧
      dom r = resolved_env_ids (ext := faulty_ext) ready
                (sample_pool true false true three_workers three_pending) ∧
      dom te = resolved_env_ids (ext := faulty_ext) ready
                 (sample_pool true false true three_workers three_pending) ∧
      dom tr = resolved_env_ids (ext := faulty_ext) ready
                 (sample_pool true false true three_workers three_pending) ∧
      dom inf = resolved_env_ids (ext := faulty_ext) ready
                  (sample_pool true false true three_workers three_pending) ∧
      extras = ∅ ∧
      head (trace s') =
        Some (EvLogDebug (resolved_env_ids (ext := faulty_ext) ready
                (sample_pool true false true three_workers three_pending))).
Proof.
  eexists _, _, _, _, _, _, _.
  split; [vm_compute; reflexivity|].
  split; [by vm_compute|].
  eapply (poll_key_sets (ext := faulty_ext)). vm_compute. reflexivity.
Defined.

(** C4 (witness): a single-agent actor whose step returned
    [(obs, 2.0, False, True, info)]. *)
Lemma single_agent_step_record_witness :
  poll_step (ext := const_ext (Ok step_tuple)) empty_batch 0
    (sample_pool true false false one_worker one_pending) =
    (set_pending (delete 0 (pending (sample_pool true false false one_worker one_pending)))
       (sample_pool true false false one_worker one_pending),
     Ok (store 0
           (VDict [(KStr "agent0", VObj 1)], VDict [(KStr "agent0", VFloat 2)],
            VDict [(KStr "agent0", VBool false); (ALL, VBool false)],
            VDict [(KStr "agent0", VBool true); (ALL, VBool true)],
            VDict [(KStr "agent0", VObj 3)])
           (add_env_id 0 empty_batch))).
Proof.
  apply (single_agent_step_record (ext := const_ext (Ok step_tuple))
           empty_batch 0 (sample_pool true false false one_worker one_pending)
           (ActorHandle 0) 0 (VObj 1) (VFloat 2) (VBool false) (VBool true) (VObj 3)).
  - reflexivity.
  - reflexivity.
  - reflexivity.
  - left. split; reflexivity.
Defined.

(** C5 (counterexample). Wrapped workers: a step outcome of length 4 makes
    [poll] raise the [ValueError] of tuple unpacking, not the
    [AssertionError] of the arity check. *)
Lemma wrapped_arity_error_is_not_assertion :
  outcome (poll (ext := const_ext (Ok short_tuple)) [[0]]
             (sample_pool false true true one_worker one_pending))
    = Some (Raise exn_unpack_few) ∧
  exc_class exn_unpack_few = ValueError ∧
  exc_class exn_unpack_few ≠ AssertionError.
Proof. split_and!; [by vm_compute | done | done]. Qed.

(** Inside the single-agent wrapper a step outcome of length 4 already
    fails in the worker, so the dispatcher sees a faulted task, not an
    outcome. *)
Example wrapped_single_agent_short_step_faults :
  _RemoteSingleAgentEnv_step (ext := const_ext (Ok short_tuple))
    (λ _, Ok short_tuple) (VDict [(KStr "agent0", VInt 1)])
  = Raise exn_unpack_few.
Proof. by vm_compute. Qed.

(** C5 (witness): an actor worker returns a 4-tuple, restarts enabled. *)
Lemma poll_arity_violation_witness :
  ∃ e, poll (ext := const_ext (Ok short_tuple)) [[0]]
         (sample_pool true false true one_worker one_pending)
       = Some (set_pending (delete 0 (pending (sample_pool true false true one_worker one_pending)))
                 (sample_pool true false true one_worker one_pending), Raise e) ∧
       exc_class e = AssertionError.
Proof.
  apply (poll_arity_violation (ext := const_ext (Ok short_tuple))
           [[0]] [] 0 [] (sample_pool true false true one_worker one_pending)
           _ empty_batch (ActorHandle 0) 0 [VObj 1; VFloat 2; VBool false; VObj 3]).
  - reflexivity.
  - reflexivity.
  - reflexivity.
  - reflexivity.
  - reflexivity.
  - simpl. lia.
  - simpl. lia.
Defined.



(** C7 (counterexample). Worker 0 has task 5 outstanding when
    [try_restart(0)] is called: the handle is still in the pending table
    afterwards, now naming a worker that is in no slot, and the [poll] in
    which it resolves raises the [ValueError] of [list.index]. *)
Lemma restart_leaves_handle_pending :
  let s := (try_restart (ext := faulty_ext) (Some 0%Z)
              (sample_pool true false true [ActorHandle 0] [(5, ActorHandle 0)])).1 in
  (try_restart (ext := faulty_ext) (Some 0%Z)
     (sample_pool true false true [ActorHandle 0] [(5, ActorHandle 0)])).2 = Ok tt ∧
  pending s !! 5 = Some (ActorHandle 0) ∧
  actors s = [ActorHandle 52] ∧
  outcome (poll (ext := faulty_ext) [[5]] s) = Some (Raise exn_not_in_list).
Proof. split_and!; by vm_compute. Qed.




(** C10 (witness): worker 0 is a multi-agent wrapper that has run
    [sample_calls]; [get_agent_ids] returns the agent of the reset only. *)
Lemma get_agent_ids_from_resets_witness :
  (get_agent_ids (ext := wrapper_ext)
     (sample_pool false true false one_worker one_pending)).2
    = Ok {[KStr "a"]} ∧
  ∃ s' ids,
    get_agent_ids (ext := wrapper_ext)
      (sample_pool false true false one_worker one_pending) = (s', Ok ids) ∧
    (∀ k, k ∈ ids ↔ ∃ c ks, c ∈ sample_calls ∧ reset_keys c = Some ks ∧ k ∈ ks) ∧
    ((∀ c, c ∈ sample_calls → reset_keys c = None) → ids = ∅) ∧
    (∀ c, ids ⊆ agent_ids (run_calls (sample_calls ++ [c]))) ∧
    (∀ r, agent_ids (run_calls (sample_calls ++ [CallStep r])) = ids).
Proof.
  split; [by vm_compute|].
  apply (get_agent_ids_from_resets (ext := wrapper_ext)
           (sample_pool false true false one_worker one_pending)
           sample_calls (ActorHandle 0)); reflexivity.
Defined.

(** * Evaluations for the further properties *)

(** X1 (witness): handles 0 and 2 of the three-worker pool are ready. *)
Lemma poll_consumes_ready_handles_witness :
  ∃ s' batch,
    poll (ext := faulty_ext) [[0; 2]] actor_pool = Some (s', Ok batch) ∧
    ∃ ready,
      wait_ready [[0; 2]] = Some ready ∧ ready ≠ [] ∧ NoDup ready ∧
      (∀ h, h ∈ ready → is_Some (pending actor_pool !! h)) ∧
      (∀ h, pending s' !! h =
            if decide (h ∈ ready) then None else pending actor_pool !! h).
Proof.
  eexists _, _. split; [vm_compute; reflexivity|].
  eapply (poll_consumes_ready_handles (ext := faulty_ext) [[0; 2]] actor_pool).
  vm_compute. reflexivity.
Defined.

(** X2 (witness): the same call. *)
Lemma poll_batch_not_empty_witness :
  ∃ s' (o r te tr inf extras : gmap nat pyval),
    poll (ext := faulty_ext) [[0; 2]] actor_pool
      = Some (s', Ok (o, r, te, tr, inf, extras)) ∧
    (o ≠ ∅ ∧ r ≠ ∅ ∧ te ≠ ∅ ∧ tr ≠ ∅ ∧ inf ≠ ∅).
Proof.
  eexists _, _, _, _, _, _, _. split; [vm_compute; reflexivity|].
  eapply (poll_batch_not_empty (ext := faulty_ext) [[0; 2]] actor_pool).
  vm_compute. reflexivity.
Defined.

(** X3 (witness): the record of env_id 2 in that batch. *)
Lemma poll_records_come_from_ready_handles_witness :
  ∃ s' batch rec,
    poll (ext := faulty_ext) [[0; 2]] actor_pool = Some (s', Ok batch) ∧
    record_at 2 batch = Some rec ∧
    ∃ ready h ret,
      wait_ready [[0; 2]] = Some ready ∧ h ∈ ready ∧
      match ray_get (Externals := faulty_ext) h with
      | Ok v => ret = v
      | Raise e => ret = fault_ret e
      end ∧
      normalize (ext := faulty_ext) (make_env_creates_actors actor_pool)
        (multiagent actor_pool) ret = Ok rec.
Proof.
  eexists _, _, _. split; [vm_compute; reflexivity|].
  split; [vm_compute; reflexivity|].
  eapply (poll_records_come_from_ready_handles (ext := faulty_ext)
            [[0; 2]] actor_pool _ _ 2).
  - vm_compute. reflexivity.
  - vm_compute. reflexivity.
Defined.

(** X4 (witness): restarts disabled, the faulting handle 1 among the ready
    ones. *)
Lemma poll_without_restart_is_passive_witness :
  ∃ s' r,
    poll (ext := faulty_ext) [[0; 1; 2]] actor_pool = Some (s', r) ∧
    actors s' = actors actor_pool ∧ next_ref s' = next_ref actor_pool ∧
    next_actor s' = next_actor actor_pool ∧
    pending s' ⊆ pending actor_pool ∧
    (trace s' = trace actor_pool ∨
     ∃ ids, trace s' = EvLogDebug ids :: trace actor_pool).
Proof.
  eexists _, _. split; [vm_compute; reflexivity|].
  eapply (poll_without_restart_is_passive (ext := faulty_ext) [[0; 1; 2]] actor_pool).
  - reflexivity.
  - vm_compute. reflexivity.
Defined.

(** X5 (witness): handle 5 names worker 0, the pool holds worker 52. *)
Lemma poll_stale_handle_raises_witness :
  poll (ext := faulty_ext) [[5]] stale_pool =
    Some (set_pending (delete 5 (pending stale_pool)) stale_pool,
          Raise exn_not_in_list).
Proof.
  apply (poll_stale_handle_raises (ext := faulty_ext) [[5]] [] 5 [] stale_pool
           stale_pool empty_batch (ActorHandle 0)).
  - reflexivity.
  - reflexivity.
  - reflexivity.
  - intros Hin%list_elem_of_singleton. discriminate.
Defined.

(** X6 (witness): the task of the only worker faults with an exception
    that has no arguments. *)
Lemma poll_fault_without_args_raises_witness :
  poll (ext := const_ext (Raise bare_fault)) [[5]] restartable_pool =
    Some (set_pending (delete 5 (pending restartable_pool)) restartable_pool,
          Raise exn_tuple_range).
Proof.
  apply (poll_fault_without_args_raises (ext := const_ext (Raise bare_fault))
           [[5]] [] 5 [] restartable_pool restartable_pool empty_batch
           (ActorHandle 0) 0 bare_fault); reflexivity.
Defined.

(** X7 (witness): a multi-agent actor returns [({"a": obs}, {})] from
    [reset]. *)
Lemma poll_reset_record_witness :
  ∃ rew,
    poll_step (ext := const_ext (Ok reset_outcome)) empty_batch 0 multi_actor_pool =
      (set_pending (delete 0 (pending multi_actor_pool)) multi_actor_pool,
       Ok (store 0
             (VDict [(KStr "a", VObj 1)], VDict rew, VDict [(ALL, VBool false)],
              VDict [(ALL, VBool false)],
              if multiagent multi_actor_pool then VDict []
              else singleton_dict (ext := const_ext (Ok reset_outcome)) (VDict []))
             (add_env_id 0 empty_batch))) ∧
    ∀ k, dict_get rew k =
           if decide (k ∈ dict_keys [(KStr "a", VObj 1)]) then Some (VInt 0) else None.
Proof.
  apply (poll_reset_record (ext := const_ext (Ok reset_outcome)) empty_batch 0
           multi_actor_pool (ActorHandle 0) 0 (VDict [(KStr "a", VObj 1)]) (VDict [])
           [(KStr "a", VObj 1)]); reflexivity.
Defined.

(** X8 (witness): the worker reports the end of the episode but a reward of
    [None]. *)
Lemma poll_none_reward_step_is_a_reset_witness :
  ∃ rew,
    poll_step (ext := const_ext (Ok none_reward_outcome)) empty_batch 0
        multi_actor_pool =
      (set_pending (delete 0 (pending multi_actor_pool)) multi_actor_pool,
       Ok (store 0
             (VDict [(KStr "a", VObj 1)], VDict rew, VDict [(ALL, VBool false)],
              VDict [(ALL, VBool false)], VDict [])
             (add_env_id 0 empty_batch))) ∧
    ∀ k, dict_get rew k =
           if decide (k ∈ dict_keys [(KStr "a", VObj 1)]) then Some (VInt 0) else None.
Proof.
  apply (poll_none_reward_step_is_a_reset (ext := const_ext (Ok none_reward_outcome))
           empty_batch 0 multi_actor_pool (ActorHandle 0) 0 [(KStr "a", VObj 1)]
           (VDict [(ALL, VBool true)]) (VDict [(ALL, VBool false)]) (VDict []));
    reflexivity.
Defined.

(** X9 (witness): an actor returns its step outcome as a list of five. *)
Lemma poll_rejects_non_tuple_witness :
  ∃ e, poll (ext := const_ext (Ok list_outcome)) [[0]] multi_actor_pool =
         Some (set_pending (delete 0 (pending multi_actor_pool)) multi_actor_pool,
               Raise e) ∧
       exc_class e = AssertionError.
Proof.
  apply (poll_rejects_non_tuple (ext := const_ext (Ok list_outcome)) [[0]] [] 0 []
           multi_actor_pool multi_actor_pool empty_batch (ActorHandle 0) 0
           list_outcome); try reflexivity.
  intros xs. discriminate.
Defined.

(** X10 (witness): [try_reset(1)] on the idle three-worker pool. *)
Lemma try_reset_submits_reset_witness :
  ∃ s',
    try_reset (ext := faulty_ext) (Some 1%Z) (VInt 7) VNone idle_actor_pool =
      (s', Ok (VStr "async_reset_return", VStr "async_reset_return")) ∧
    pending s' = <[next_ref idle_actor_pool := ActorHandle 1]> (pending idle_actor_pool) ∧
    actors s' = actors idle_actor_pool ∧
    target s' (next_ref idle_actor_pool) = Some 1 ∧
    trace s' = EvRemote (ActorHandle 1) (MReset (VInt 7) VNone)
                 (next_ref idle_actor_pool) :: trace idle_actor_pool.
Proof.
  apply (try_reset_submits_reset (ext := faulty_ext) (Some 1%Z) (VInt 7) VNone
           idle_actor_pool 1 1).
  - reflexivity.
  - reflexivity.
  - apply (bool_decide_unpack _). by vm_compute.
Defined.

(** X12 (witness): the second entry addresses slot 7 of a pool of three. *)
Lemma send_actions_stops_at_first_error_witness :
  ∃ s1,
    send_actions (ext := faulty_ext) [(KInt 0, VDict [(KStr "agent0", VInt 1)])]
      idle_actor_pool = (s1, Ok tt) ∧
    pending s1 = {[100 := ActorHandle 0]} ∧
    ∃ e, send_actions (ext := faulty_ext)
           ([(KInt 0, VDict [(KStr "agent0", VInt 1)])]
              ++ (KInt 7, VDict [(KStr "agent0", VInt 1)])
              :: [(KInt 1, VDict [(KStr "agent0", VInt 1)])])
           idle_actor_pool = (s1, Raise e).
Proof.
  eexists. split; [vm_compute; reflexivity|].
  split; [vm_compute; reflexivity|].
  apply (send_actions_stops_at_first_error (ext := faulty_ext)).
  - vm_compute. reflexivity.
  - left. eexists. vm_compute. reflexivity.
Defined.

(** X13 (witness): actions for the workers 0 and 2. *)
Lemma send_actions_submits_steps_witness :
  ∃ s',
    send_actions (ext := faulty_ext) two_actions idle_actor_pool = (s', Ok tt) ∧
    actors s' = actors idle_actor_pool ∧
    next_ref s' = next_ref idle_actor_pool + length two_actions ∧
    (∀ n k actions, two_actions !! n = Some (k, actions) →
       ∃ w p, list_getitem (actors idle_actor_pool) (int_of_key k) = Ok w ∧
              step_payload (ext := faulty_ext) idle_actor_pool actions = Ok p ∧
              pending s' !! (next_ref idle_actor_pool + n) = Some w ∧
              EvRemote w (MStep p) (next_ref idle_actor_pool + n) ∈ trace s') ∧
    (∀ h, h < next_ref idle_actor_pool →
          pending s' !! h = pending idle_actor_pool !! h) ∧
    (∀ ev, ev ∈ trace idle_actor_pool → ev ∈ trace s').
Proof.
  apply (send_actions_submits_steps (ext := faulty_ext) two_actions idle_actor_pool).
  repeat constructor.
  - exists 0, (VInt 1). split; reflexivity.
  - exists 2, (VInt 0). split; reflexivity.
Defined.

(** X14 (witness): the two wrapper workers as constructed; handle 2 is
    pending and the next ref is 4. *)
Lemma pending_handles_are_fresh_witness :
  reachable (ext := wrapper_ext) two_wrapped ∧
  pending two_wrapped !! 2 = Some (ActorHandle 0) ∧
  2 < next_ref two_wrapped.
Proof.
  assert (reachable (ext := wrapper_ext) two_wrapped) as Hreach.
  { apply (reach_init (ext := wrapper_ext) 2 false 0 false false 0 0 [] None).
    - vm_compute. reflexivity.
    - discriminate. }
  split_and!; [exact Hreach | reflexivity |].
  apply (pending_handles_are_fresh (ext := wrapper_ext) two_wrapped 2 (ActorHandle 0)
           Hreach).
  reflexivity.
Defined.

(** X15 (witness): the three-worker pool with its three pending resets. *)
Lemma submissions_keep_pending_handles_witness :
  fresh_handles actor_pool ∧
  pending actor_pool ⊆
    pending (send_actions (ext := faulty_ext) two_actions actor_pool).1 ∧
  pending actor_pool ⊆
    pending (try_reset (ext := faulty_ext) (Some 1%Z) VNone VNone actor_pool).1.
Proof.
  assert (fresh_handles actor_pool) as Hf.
  { intros h w Hh.
    assert (pending actor_pool = map_seq 0 three_workers) as Hp
      by (vm_compute; reflexivity).
    rewrite Hp in Hh. apply lookup_map_seq_Some in Hh as [_ Hh%lookup_lt_Some].
    simpl in *. lia. }
  split; [exact Hf|].
  apply (submissions_keep_pending_handles (ext := faulty_ext) two_actions
           (Some 1%Z) VNone VNone actor_pool Hf).
Defined.

(** X17 (witness): the construction of the two wrapper workers. *)
Lemma init_submits_one_reset_per_worker_witness :
  ∃ r0,
    pending two_wrapped = map_seq r0 (actors two_wrapped) ∧
    next_ref two_wrapped = r0 + length (actors two_wrapped) ∧
    size (pending two_wrapped) = length (actors two_wrapped) ∧
    Forall (λ w, is_actor w = true) (actors two_wrapped) ∧
    (∀ k w, actors two_wrapped !! k = Some w →
            pending two_wrapped !! (r0 + k) = Some w).
Proof.
  apply (init_submits_one_reset_per_worker (ext := wrapper_ext) None
           (blank 2 false 0 false false 0 0 []) two_wrapped).
  vm_compute. reflexivity.
Defined.



(** X20 (witness): the factory raises whenever it is called. *)
Lemma try_restart_factory_fault_witness :
  ∃ s', try_restart (ext := broken_factory_ext) (Some 0%Z) restartable_pool
          = (s', Raise boom) ∧
        actors s' = actors restartable_pool ∧
        pending s' = pending restartable_pool ∧
        trace s' = EvMakeEnv 0 (Raise boom)
                     :: EvRemote (ActorHandle 0) MTerminate (S (next_ref restartable_pool))
                     :: EvRemote (ActorHandle 0) MClose (next_ref restartable_pool)
                     :: trace restartable_pool.
Proof.
  apply (try_restart_factory_fault (ext := broken_factory_ext) 0 restartable_pool
           0 boom); reflexivity.
Defined.

(** X21 (witness): restarting slot 1 leaves slot 0 alone. *)
Lemma try_restart_touches_one_slot_witness :
  actors (try_restart (ext := faulty_ext) (Some 1%Z) actor_pool).1 !! 0 =
    actors actor_pool !! 0.
Proof.
  apply (try_restart_touches_one_slot (ext := faulty_ext) (Some 1%Z) actor_pool 0).
  intros j Hj. vm_compute in Hj. injection Hj as <-. lia.
Defined.

(** X22 (witness): stopping the three-worker pool. *)
Lemma stop_terminates_every_worker_witness :
  ∃ s', stop actor_pool = (s', Ok tt) ∧
        trace s' = rev (terminate_events (next_ref actor_pool) (actors actor_pool))
                     ++ trace actor_pool ∧
        actors s' = actors actor_pool ∧ pending s' = pending actor_pool.
Proof.
  apply (stop_terminates_every_worker actor_pool). repeat constructor.
Defined.


(** X25 (witness): [num_envs = 0] and no existing environments. *)
Lemma init_empty_pool_raises_witness :
  ∃ s', __init__ (ext := wrapper_ext) None (blank 0 false 0 false false 0 0 [])
        = (s', Raise exn_index_range) ∧
        actors s' = [] ∧ pending s' = ∅ ∧ trace s' = [].
Proof.
  apply (init_empty_pool_raises (ext := wrapper_ext) 0 false 0 false false 0 0 []
           None); [reflexivity | lia].
Defined.


(** X29 (witness): the environment returns a proper five-tuple. *)
Lemma single_agent_wrapper_step_needs_five_witness :
  (∃ ret, _RemoteSingleAgentEnv_step (ext := wrapper_ext) (λ _, Ok step_tuple)
            (VDict [(KStr "agent0", VInt 1)]) = Ok ret) ↔
  (∃ o r t tr i,
     (try! results := (λ _ : pyval, Ok step_tuple) (VInt 1) in py_iter results)
       = Ok [o; r; t; tr; i]).
Proof.
  apply (single_agent_wrapper_step_needs_five (ext := wrapper_ext)
           (λ _, Ok step_tuple) (VDict [(KStr "agent0", VInt 1)]) (VInt 1)).
  reflexivity.
Defined.

(** X30 (witness): one actor handle supplied, [num_envs] is 2 and an
    owning worker is set. *)
Lemma init_with_worker_cannot_extend_witness :
  ∃ s', __init__ (ext := faulty_ext) (Some one_worker)
          (blank 2 false 0 true false 0 0 [])
        = (s', Raise exn_index_range) ∧
        actors s' = one_worker ∧ pending s' = ∅ ∧
        trace s' = EvMakeEnv (Z.of_nat (length one_worker)) (Ok (ActorHandle 50)) :: [].
Proof.
  apply (init_with_worker_cannot_extend (ext := faulty_ext) 2 false 0 false 0 0 []
           one_worker (ActorHandle 50)).
  - reflexivity.
  - simpl. lia.
  - reflexivity.
Defined.
